(** * RKLB swing strategy: a shallow embedding of [rklb_swing.py]

    The development follows [src/Algorithms/space_strategy/rklb_swing.py]:
    the per-bar callback [OnData], the scorer [CalculateSignalScore], the
    exit logic [ManagePosition] and the custom-data parser
    [RocketLabLaunch.Reader].

    Modelling conventions.
    - Prices, cash and indicator values are Python floats in the source.
      They are embedded as exact rationals ([Q]); rounding, infinities and
      NaN are outside the model.  Float literals such as [0.05] stand for
      the decimal they denote.
    - Everything the algorithm reads from the LEAN engine during one call
      ([self.Time], [self.IsWarmingUp], the slice, [self.Securities],
      [self.Portfolio], the indicators) is an explicit input record [Env].
    - Everything it asks the engine to do ([MarketOrder], [Liquidate],
      [Log]) is an explicit output list of [Action]s.  The f-string of a
      log line is kept as a constructor carrying the interpolated values.
    - Python exceptions are results [Raise e].
    - Library functions whose full behaviour is not needed ([int] on a
      string, [datetime.strptime]) are section variables. *)

From Stdlib Require Import ZArith QArith Qround Bool List String Ascii Lia Lqa.
Import ListNotations.

Local Open Scope Z_scope.

(* ================================================================= *)
(** ** Python primitives used by the source *)

Module Py.

Inductive exn : Type := ValueError | ZeroDivisionError.

Inductive result (A : Type) : Type :=
| Ok (a : A)
| Raise (e : exn).
Arguments Ok {A} a.
Arguments Raise {A} e.

Definition bind {A B : Type} (m : result A) (k : A -> result B) : result B :=
  match m with
  | Ok a => k a
  | Raise e => Raise e
  end.

(** [x < y] and [x <= y] on numbers. *)
Definition leb (x y : Q) : bool := Qle_bool x y.
Definition ltb (x y : Q) : bool := negb (Qle_bool y x).

(** [a / b]: true division, raising on a zero divisor. *)
Definition truediv (a b : Q) : result Q :=
  if Qeq_bool b 0 then Raise ZeroDivisionError else Ok (a / b)%Q.

(** A division that refuses every non-positive divisor.  It is never
    what Python does; it is used to show that a guard keeps such divisors
    away from the division. *)
Definition guarded_truediv (a b : Q) : result Q :=
  if Qle_bool b 0 then Raise ZeroDivisionError else Ok (a / b)%Q.

(** [int(x)] on a number: truncation toward zero. *)
Definition int_of_float (x : Q) : Z := Z.quot (Qnum x) (Zpos (Qden x)).

(** *** Strings (sequences of code points below 256) *)

(** [str.isspace] on one character. *)
Definition isspace (c : ascii) : bool :=
  let n := Z.of_nat (nat_of_ascii c) in
  ((9 <=? n) && (n <=? 13)) || ((28 <=? n) && (n <=? 32))
  || (n =? 133) || (n =? 160).

Fixpoint lstrip (s : string) : string :=
  match s with
  | EmptyString => EmptyString
  | String c r => if isspace c then lstrip r else s
  end.

Fixpoint rstrip (s : string) : string :=
  match s with
  | EmptyString => EmptyString
  | String c r =>
      match rstrip r with
      | EmptyString => if isspace c then EmptyString else String c EmptyString
      | r' => String c r'
      end
  end.

Definition strip (s : string) : string := rstrip (lstrip s).

Definition startswith (s p : string) : bool := String.prefix p s.

(** [s.split(sep)] for a one-character separator. *)
Fixpoint split (sep : ascii) (s : string) : list string :=
  match s with
  | EmptyString => [EmptyString]
  | String c r =>
      if Ascii.eqb c sep then EmptyString :: split sep r
      else match split sep r with
           | h :: t => String c h :: t
           | [] => [String c EmptyString]
           end
  end.

Definition is_empty (s : string) : bool :=
  match s with EmptyString => true | _ => false end.

(** *** datetime *)

(** A [datetime] is the number of microseconds since
    0001-01-01T00:00:00, the first instant of proleptic ordinal day 1. *)
Definition datetime : Type := Z.

Definition us_per_day : Z := 86400000000.
Definition us_per_hour : Z := 3600000000.

Definition toordinal (t : datetime) : Z := t / us_per_day + 1.

(** [(a - b).days]: a [timedelta] is normalised with its seconds and
    microseconds non-negative, so [days] is the floor. *)
Definition sub_days (a b : datetime) : Z := (a - b) / us_per_day.

(** [t + timedelta(hours=h)]. *)
Definition add_hours (t : datetime) (h : Z) : datetime := t + h * us_per_hour.

Definition days_before_year (year : Z) : Z :=
  let y := year - 1 in y * 365 + y / 4 - y / 100 + y / 400.

(** The year part of CPython's [_ord2ymd]. *)
Definition year_of_ordinal (ord : Z) : Z :=
  let n := ord - 1 in
  let n400 := n / 146097 in
  let n := n mod 146097 in
  let n100 := n / 36524 in
  let n := n mod 36524 in
  let n4 := n / 1461 in
  let n := n mod 1461 in
  let n1 := n / 365 in
  let year := n400 * 400 + 1 + n100 * 100 + n4 * 4 + n1 in
  if (n1 =? 4) || (n100 =? 4) then year - 1 else year.

Definition isoweek1monday (year : Z) : Z :=
  let firstday := days_before_year year + 1 in
  let firstweekday := (firstday + 6) mod 7 in
  let week1monday := firstday - firstweekday in
  if 3 <? firstweekday then week1monday + 7 else week1monday.

(** [t.isocalendar()[1]]: the ISO week number. *)
Definition isocalendar_week (t : datetime) : Z :=
  let today := toordinal t in
  let year := year_of_ordinal today in
  let week := (today - isoweek1monday year) / 7 in
  if week <? 0 then (today - isoweek1monday (year - 1)) / 7 + 1
  else if 52 <=? week then
    if isoweek1monday (year + 1) <=? today then 1 else week + 1
  else week + 1.

(** The instant [00:00] of an ordinal day, for writing concrete inputs. *)
Definition midnight (ord : Z) : datetime := (ord - 1) * us_per_day.

End Py.

Import Py.

Declare Scope py_scope.
Notation "x <- m ;; k" := (Py.bind m (fun x => k))
  (at level 61, m at next level, right associativity) : py_scope.
Notation "' p <- m ;; k" := (Py.bind m (fun p => k))
  (at level 61, p pattern, m at next level, right associativity) : py_scope.
Local Open Scope py_scope.

(* ================================================================= *)
(** ** Data model *)

(** One object of class [RocketLabLaunch] as [Reader] fills it: the
    [BaseData] attributes [Symbol], [Time], [Value] and the four dynamic
    properties. *)
Record RocketLabLaunch : Type := {
  l_Symbol : string;
  l_Time : datetime;
  Value : Z;
  Mission : string;
  FlightNo : string;
  Outcome : string;
  DaysToLaunch : string
}.

(** Current values and readiness of the indicators built in [Initialize]. *)
Record Indicators : Type := {
  rsi_ready : bool;
  macd_ready : bool;
  sma_fast_ready : bool;
  sma_slow_ready : bool;
  rsi_val : Q;
  macd_val : Q;
  macd_signal : Q;
  macd_hist : Q;
  sma_fast_val : Q;
  sma_slow_val : Q;
  bb_lower : Q;
  bb_middle : Q
}.

(** What one call of [OnData] reads from the engine. *)
Record Env : Type := {
  IsWarmingUp : bool;                      (* self.IsWarmingUp *)
  Time : datetime;                         (* self.Time *)
  launch_data : option RocketLabLaunch;    (* data[self.launch_data], if in data *)
  rklb_in_data : bool;                     (* self.rklb in data and not None *)
  Price : Q;                               (* self.Securities[self.rklb].Price *)
  Invested : bool;                         (* self.Portfolio[self.rklb].Invested *)
  Cash : Q;                                (* self.Portfolio.Cash *)
  ind : Indicators
}.

(** The attributes of [RKLBSwingStrategy] set in [Initialize]. *)
Record State : Type := {
  entry_price : Q;
  entry_date : option datetime;
  stop_loss_pct : Q;
  take_profit_pct : Q;
  max_hold_days : Z;
  trades_this_week : Z;
  last_week : Z;
  max_trades_per_week : Z;
  upcoming_launch : bool;
  days_to_launch : Z;
  last_launch_outcome : option string;
  days_since_launch : Z;
  signal_log : list string
}.

(** The reason appended to [reasons] by each scoring rule. *)
Inductive Reason : Type :=
| RsiOversoldRecovery (rsi : Q)
| MacdBullish (hist : Q)
| SmaUptrend (fast slow : Q)
| PriceAboveSma20
| NearBollingerLower
| LaunchIn (days : Z)
| PostLaunchMomentum (days : Z).

(** The four exits of [ManagePosition]; the source logs them as
    "STOP LOSS", "TAKE PROFIT", "TIME STOP" and "TRAILING STOP". *)
Inductive ExitReason : Type := STOP_LOSS | TAKE_PROFIT | TIME_STOP | TRAILING_STOP.

Inductive LogMsg : Type :=
| LogLaunchEvent (mission outcome : string)
| LogBuy (shares : Z) (price : Q) (score : Z) (rsi macd : Q)
| LogSignalScore (score : Z) (reasons : list Reason)
| LogExit (r : ExitReason) (price pnl_pct : Q) (days_held : Z)
| LogEndOfBacktest.

Inductive Action : Type :=
| MarketOrder (shares : Z)     (* self.MarketOrder(self.rklb, shares) *)
| Liquidate                    (* self.Liquidate(self.rklb) *)
| LiquidateAll                 (* self.Liquidate() *)
| Log (m : LogMsg).

(** *** Attribute assignments *)

Definition set_position (ep : Q) (ed : option datetime) (s : State) : State :=
  {| entry_price := ep; entry_date := ed;
     stop_loss_pct := stop_loss_pct s; take_profit_pct := take_profit_pct s;
     max_hold_days := max_hold_days s;
     trades_this_week := trades_this_week s; last_week := last_week s;
     max_trades_per_week := max_trades_per_week s;
     upcoming_launch := upcoming_launch s; days_to_launch := days_to_launch s;
     last_launch_outcome := last_launch_outcome s;
     days_since_launch := days_since_launch s; signal_log := signal_log s |}.

Definition set_trades_this_week (n : Z) (s : State) : State :=
  {| entry_price := entry_price s; entry_date := entry_date s;
     stop_loss_pct := stop_loss_pct s; take_profit_pct := take_profit_pct s;
     max_hold_days := max_hold_days s;
     trades_this_week := n; last_week := last_week s;
     max_trades_per_week := max_trades_per_week s;
     upcoming_launch := upcoming_launch s; days_to_launch := days_to_launch s;
     last_launch_outcome := last_launch_outcome s;
     days_since_launch := days_since_launch s; signal_log := signal_log s |}.

Definition set_last_week (w : Z) (s : State) : State :=
  {| entry_price := entry_price s; entry_date := entry_date s;
     stop_loss_pct := stop_loss_pct s; take_profit_pct := take_profit_pct s;
     max_hold_days := max_hold_days s;
     trades_this_week := trades_this_week s; last_week := w;
     max_trades_per_week := max_trades_per_week s;
     upcoming_launch := upcoming_launch s; days_to_launch := days_to_launch s;
     last_launch_outcome := last_launch_outcome s;
     days_since_launch := days_since_launch s; signal_log := signal_log s |}.

Definition set_upcoming_launch (b : bool) (s : State) : State :=
  {| entry_price := entry_price s; entry_date := entry_date s;
     stop_loss_pct := stop_loss_pct s; take_profit_pct := take_profit_pct s;
     max_hold_days := max_hold_days s;
     trades_this_week := trades_this_week s; last_week := last_week s;
     max_trades_per_week := max_trades_per_week s;
     upcoming_launch := b; days_to_launch := days_to_launch s;
     last_launch_outcome := last_launch_outcome s;
     days_since_launch := days_since_launch s; signal_log := signal_log s |}.

Definition set_days_to_launch (n : Z) (s : State) : State :=
  {| entry_price := entry_price s; entry_date := entry_date s;
     stop_loss_pct := stop_loss_pct s; take_profit_pct := take_profit_pct s;
     max_hold_days := max_hold_days s;
     trades_this_week := trades_this_week s; last_week := last_week s;
     max_trades_per_week := max_trades_per_week s;
     upcoming_launch := upcoming_launch s; days_to_launch := n;
     last_launch_outcome := last_launch_outcome s;
     days_since_launch := days_since_launch s; signal_log := signal_log s |}.

Definition set_last_launch_outcome (o : option string) (s : State) : State :=
  {| entry_price := entry_price s; entry_date := entry_date s;
     stop_loss_pct := stop_loss_pct s; take_profit_pct := take_profit_pct s;
     max_hold_days := max_hold_days s;
     trades_this_week := trades_this_week s; last_week := last_week s;
     max_trades_per_week := max_trades_per_week s;
     upcoming_launch := upcoming_launch s; days_to_launch := days_to_launch s;
     last_launch_outcome := o;
     days_since_launch := days_since_launch s; signal_log := signal_log s |}.

Definition set_days_since_launch (n : Z) (s : State) : State :=
  {| entry_price := entry_price s; entry_date := entry_date s;
     stop_loss_pct := stop_loss_pct s; take_profit_pct := take_profit_pct s;
     max_hold_days := max_hold_days s;
     trades_this_week := trades_this_week s; last_week := last_week s;
     max_trades_per_week := max_trades_per_week s;
     upcoming_launch := upcoming_launch s; days_to_launch := days_to_launch s;
     last_launch_outcome := last_launch_outcome s;
     days_since_launch := n; signal_log := signal_log s |}.

(* ================================================================= *)
(** ** class RKLBSwingStrategy *)

(** [Initialize]: the trade-management and launch-tracking attributes. *)
Definition Initialize : State :=
  {| entry_price := 0; entry_date := None;
     stop_loss_pct := 5 # 100; take_profit_pct := 10 # 100;
     max_hold_days := 10;
     trades_this_week := 0; last_week := -1;
     max_trades_per_week := 5;
     upcoming_launch := false; days_to_launch := 999;
     last_launch_outcome := None;
     days_since_launch := 999; signal_log := [] |}.

(** [ResetPosition]. *)
Definition ResetPosition (s : State) : State := set_position 0 None s.

(** One scoring rule: [if c: score += 1; reasons.append(r)]. *)
Definition rule (c : bool) (r : Reason) (acc : Z * list Reason) : Z * list Reason :=
  if c then (fst acc + 1, snd acc ++ [r]) else acc.

(** The locals [score] and [reasons] of [CalculateSignalScore] when
    control reaches the final [if score >= 3]. *)
Definition score_and_reasons (s : State) (price : Q) (i : Indicators)
  : Z * list Reason :=
  let acc := (0, []) in
  (* 1. RSI oversold recovery *)
  let acc := rule (ltb 30 (rsi_val i) && ltb (rsi_val i) 45)
                  (RsiOversoldRecovery (rsi_val i)) acc in
  (* 2. MACD bullish crossover *)
  let acc := rule (ltb (macd_signal i) (macd_val i) && ltb 0 (macd_hist i))
                  (MacdBullish (macd_hist i)) acc in
  (* 3. SMA golden cross *)
  let acc := rule (ltb (sma_slow_val i) (sma_fast_val i))
                  (SmaUptrend (sma_fast_val i) (sma_slow_val i)) acc in
  (* 4. Price above 20-day SMA *)
  let acc := rule (ltb (sma_fast_val i) price) PriceAboveSma20 acc in
  (* 5. Bollinger band bounce *)
  let acc := rule (ltb price (bb_lower i * (102 # 100))) NearBollingerLower acc in
  (* 6. Upcoming launch *)
  let acc := rule (upcoming_launch s
                   && ((1 <=? days_to_launch s) && (days_to_launch s <=? 5)))
                  (LaunchIn (days_to_launch s)) acc in
  (* 7. Post-successful launch momentum *)
  let acc := rule ((days_since_launch s <=? 3)
                   && match last_launch_outcome s with
                      | Some o => String.eqb o "Success"
                      | None => false
                      end)
                  (PostLaunchMomentum (days_since_launch s)) acc in
  acc.

(** [CalculateSignalScore]: the returned score and what it logged. *)
Definition CalculateSignalScore (s : State) (price : Q) (i : Indicators)
  : Z * list Action :=
  let (score, reasons) := score_and_reasons s price i in
  (score, if 3 <=? score then [Log (LogSignalScore score reasons)] else []).

(** One exit of [ManagePosition]: liquidate, log, reset. *)
Definition exit_with (r : ExitReason) (s : State) (price pnl_pct : Q) (days_held : Z)
  : State * list Action :=
  (ResetPosition s, [Liquidate; Log (LogExit r price pnl_pct days_held)]).

Section Engine.

(** [int(x)] on a string: [None] when Python raises [ValueError]. *)
Variable int_of_str : string -> option Z.

(** The division used for [/]; Python's is [Py.truediv]. *)
Variable div : Q -> Q -> result Q.

(** [ManagePosition]. *)
Definition ManagePosition (s : State) (price : Q) (now : datetime)
  : result (State * list Action) :=
  if leb (entry_price s) 0 then Ok (s, [])
  else
    pnl_pct <- div (price - entry_price s)%Q (entry_price s) ;;
    let days_held :=
      match entry_date s with
      | Some d => sub_days now d
      | None => 0
      end in
    (* Stop Loss *)
    if leb pnl_pct (- stop_loss_pct s) then
      Ok (exit_with STOP_LOSS s price pnl_pct days_held)
    (* Take Profit *)
    else if leb (take_profit_pct s) pnl_pct then
      Ok (exit_with TAKE_PROFIT s price pnl_pct days_held)
    (* Time Stop *)
    else if max_hold_days s <=? days_held then
      Ok (exit_with TIME_STOP s price pnl_pct days_held)
    (* Trailing stop *)
    else if ltb (5 # 100) pnl_pct then
      let trailing_stop := (entry_price s * (103 # 100))%Q in
      if leb price trailing_stop then
        Ok (exit_with TRAILING_STOP s price pnl_pct days_held)
      else Ok (s, [])
    else Ok (s, []).

(** [OnData], lines 74-78: reset the weekly trade counter. *)
Definition reset_weekly_counter (s : State) (now : datetime) : State :=
  let current_week := isocalendar_week now in
  if negb (current_week =? last_week s) then
    set_last_week current_week (set_trades_this_week 0 s)
  else s.

(** [OnData], lines 80-90: process launch events. *)
Definition process_launch (s : State) (data : option RocketLabLaunch)
  : result (State * list Action) :=
  match data with
  | None => Ok (s, [])
  | Some launch =>
      if Value launch =? 1 then
        let s := set_upcoming_launch true s in
        match int_of_str (DaysToLaunch launch) with
        | Some n => Ok (set_days_to_launch n s, [])
        | None => Raise ValueError
        end
      else if Value launch =? 2 then
        let s := set_days_since_launch 0 s in
        let s := set_last_launch_outcome (Some (Outcome launch)) s in
        let s := set_upcoming_launch false s in
        Ok (s, [Log (LogLaunchEvent (Mission launch) (Outcome launch))])
      else Ok (s, [])
  end.

(** [OnData], lines 108-128: generate entry signals (the strategy is flat
    and [price > 0]). *)
Definition generate_entry (s : State) (e : Env) : result (State * list Action) :=
  let price := Price e in
  if max_trades_per_week s <=? trades_this_week s then Ok (s, [])
  else if negb (rsi_ready (ind e) && macd_ready (ind e)
                && sma_fast_ready (ind e) && sma_slow_ready (ind e)) then Ok (s, [])
  else
    let (signal_score, logged) := CalculateSignalScore s price (ind e) in
    if 3 <=? signal_score then
      let available_cash := (Cash e * (95 # 100))%Q in
      q <- div available_cash price ;;
      let shares := int_of_float q in
      if 0 <? shares then
        let s := set_position price (Some (Time e)) s in
        let s := set_trades_this_week (trades_this_week s + 1) s in
        Ok (s, logged ++ [MarketOrder shares;
                          Log (LogBuy shares price signal_score
                                      (rsi_val (ind e)) (macd_val (ind e)))])
      else Ok (s, logged)
    else Ok (s, logged).

(** [OnData]. *)
Definition OnData (s : State) (e : Env) : result (State * list Action) :=
  if IsWarmingUp e then Ok (s, [])
  else
    let s := reset_weekly_counter s (Time e) in
    '(s, out1) <- process_launch s (launch_data e) ;;
    (* Increment days since launch *)
    let s := set_days_since_launch (days_since_launch s + 1) s in
    if negb (rklb_in_data e) then Ok (s, out1)
    else
      let price := Price e in
      if leb price 0 then Ok (s, out1)
      else if Invested e then
        '(s, out2) <- ManagePosition s price (Time e) ;;
        Ok (s, out1 ++ out2)
      else
        '(s, out2) <- generate_entry s e ;;
        Ok (s, out1 ++ out2).

(** [OnEndOfAlgorithm], given [self.Portfolio.Invested]. *)
Definition OnEndOfAlgorithm (invested : bool) : list Action :=
  if invested then [LiquidateAll; Log LogEndOfBacktest] else [].

(** The completed calls of a run: after each, the new state and what the
    call emitted.  A call that raises ends the run. *)
Fixpoint trace (s : State) (es : list Env) : list (State * list Action) :=
  match es with
  | [] => []
  | e :: es' =>
      match OnData s e with
      | Ok (s', out) => (s', out) :: trace s' es'
      | Raise _ => []
      end
  end.

(** States the algorithm can be in between two calls. *)
Inductive reachable : State -> Prop :=
| reach_init : reachable Initialize
| reach_step s e s' out :
    reachable s -> OnData s e = Ok (s', out) -> reachable s'.

End Engine.

(* ================================================================= *)
(** ** class RocketLabLaunch *)

Section LaunchReader.

(** [datetime.strptime(x, "%Y-%m-%d")]: [None] when it raises
    [ValueError]. *)
Variable strptime_ymd : string -> option datetime.

(** [Reader]; [config] is represented by its [Symbol]. *)
Definition Reader (config_symbol : string) (line : string)
           (date : datetime) (isLive : bool) : option RocketLabLaunch :=
  if is_empty (strip line) || startswith line "Date" then None
  else
    match split "," line with
    | d0 :: d1 :: d2 :: d3 :: _ =>
        match strptime_ymd (strip d0) with
        | Some launch_date =>
            Some {| l_Symbol := config_symbol;
                    l_Time := add_hours launch_date 12;
                    Value := 2;
                    Mission := strip d1;
                    FlightNo := strip d2;
                    Outcome := strip d3;
                    DaysToLaunch := "0" |}
        | None => None
        end
    | _ => None
    end.

End LaunchReader.

(* ================================================================= *)
(** ** Observations on what a call emitted *)

(** The orders among the actions. *)
Definition orders (out : list Action) : list Action :=
  filter (fun a => match a with Log _ => false | _ => true end) out.

(** The quantities bought. *)
Definition entries (out : list Action) : list Z :=
  flat_map (fun a => match a with MarketOrder n => [n] | _ => [] end) out.

(** The exits logged by [ManagePosition]. *)
Definition exit_reasons (out : list Action) : list ExitReason :=
  flat_map (fun a => match a with Log (LogExit r _ _ _) => [r] | _ => [] end) out.

(** The locals [pnl_pct] and [days_held] of [ManagePosition]. *)
Definition pnl_pct (s : State) (price : Q) : Q :=
  ((price - entry_price s) / entry_price s)%Q.

Definition days_held (s : State) (now : datetime) : Z :=
  match entry_date s with
  | Some d => sub_days now d
  | None => 0
  end.

(** The constants of [Initialize] that no method assigns again. *)
Definition default_config (s : State) : Prop :=
  stop_loss_pct s = 5 # 100 /\ take_profit_pct s = 10 # 100
  /\ max_hold_days s = 10 /\ max_trades_per_week s = 5.

(** A launch record on which [OnData] does not call [int], or on which
    [int] succeeds. *)
Definition launch_ok (int_of_str : string -> option Z) (e : Env) : Prop :=
  match launch_data e with
  | Some l => Value l = 1 -> int_of_str (DaysToLaunch l) <> None
  | None => True
  end.

(** The seven scoring conditions of [CalculateSignalScore], in the order
    of evaluation. *)
Definition predicates (s : State) (price : Q) (i : Indicators) : list bool :=
  [ ltb 30 (rsi_val i) && ltb (rsi_val i) 45;
    ltb (macd_signal i) (macd_val i) && ltb 0 (macd_hist i);
    ltb (sma_slow_val i) (sma_fast_val i);
    ltb (sma_fast_val i) price;
    ltb price (bb_lower i * (102 # 100));
    upcoming_launch s && ((1 <=? days_to_launch s) && (days_to_launch s <=? 5));
    (days_since_launch s <=? 3)
    && match last_launch_outcome s with
       | Some o => String.eqb o "Success"
       | None => false
       end ].

(** The reason each condition appends, in the same order. *)
Definition reason_texts (s : State) (i : Indicators) : list Reason :=
  [ RsiOversoldRecovery (rsi_val i);
    MacdBullish (macd_hist i);
    SmaUptrend (sma_fast_val i) (sma_slow_val i);
    PriceAboveSma20;
    NearBollingerLower;
    LaunchIn (days_to_launch s);
    PostLaunchMomentum (days_since_launch s) ].

Definition count_true (l : list bool) : Z := Z.of_nat (List.length (filter id l)).

(** The reasons paired with a condition that holds. *)
Definition selected {A : Type} (cs : list bool) (xs : list A) : list A :=
  map snd (filter fst (combine cs xs)).

(** The inputs of the scorer that come from launch tracking. *)
Definition tracker_of (s : State) : bool * Z * Z * option string :=
  (upcoming_launch s, days_to_launch s, days_since_launch s, last_launch_outcome s).

(** *** The exit rules as the specification words them

    Section 4.4: stop-loss [pnlPct <= -5%], take-profit [pnlPct >= 10%],
    time-stop [daysHeld >= 10], trailing-stop [pnlPct > 0.05] and
    [currentPrice <= entryPrice * 1.03]; checked in this order, first
    match wins. *)
Definition spec_exit_triggers (entryPrice currentPrice : Q) (daysHeld : Z)
  : list (ExitReason * bool) :=
  let pnlPct := ((currentPrice - entryPrice) / entryPrice)%Q in
  [ (STOP_LOSS, leb pnlPct (- (5 # 100)));
    (TAKE_PROFIT, leb (10 # 100) pnlPct);
    (TIME_STOP, 10 <=? daysHeld);
    (TRAILING_STOP, ltb (5 # 100) pnlPct && leb currentPrice (entryPrice * (103 # 100))) ].

Fixpoint first_match (ts : list (ExitReason * bool)) : option ExitReason :=
  match ts with
  | [] => None
  | (r, c) :: ts' => if c then Some r else first_match ts'
  end.

Definition intent_list (o : option ExitReason) : list ExitReason :=
  match o with Some r => [r] | None => [] end.

(** The four readiness flags [OnData] requires before scoring. *)
Definition indicators_ready (i : Indicators) : bool :=
  rsi_ready i && macd_ready i && sma_fast_ready i && sma_slow_ready i.

(** The attributes that launch tracking leaves alone. *)
Definition same_trading (s s' : State) : Prop :=
  entry_price s' = entry_price s /\ entry_date s' = entry_date s
  /\ stop_loss_pct s' = stop_loss_pct s /\ take_profit_pct s' = take_profit_pct s
  /\ max_hold_days s' = max_hold_days s
  /\ trades_this_week s' = trades_this_week s /\ last_week s' = last_week s
  /\ max_trades_per_week s' = max_trades_per_week s.

(** The trade counter as the entry gate of a call at time [now] sees it. *)
Definition trades_at_gate (s : State) (now : datetime) : Z :=
  if isocalendar_week now =? last_week s then trades_this_week s else 0.

(** What all completed calls of a run bought. *)
Definition all_entries (tr : list (State * list Action)) : list Z :=
  flat_map (fun so => entries (snd so)) tr.

(** A call that manages an open position whose gain, measured from the
    entry price of [s], lies strictly between -5% and +10%. *)
Definition held_bar (int_of_str : string -> option Z) (s : State) (x : Env) : Prop :=
  IsWarmingUp x = false /\ launch_ok int_of_str x
  /\ rklb_in_data x = true /\ Invested x = true
  /\ (- (5 # 100) < pnl_pct s (Price x))%Q /\ (pnl_pct s (Price x) < 10 # 100)%Q.

(** [OnData], lines 74-93: the state and the log when control reaches the
    check for RKLB price data. *)
Definition before_trading (int_of_str : string -> option Z) (s : State) (e : Env)
  : result (State * list Action) :=
  '(s1, out1) <- process_launch int_of_str (reset_weekly_counter s (Time e)) (launch_data e) ;;
  Ok (set_days_since_launch (days_since_launch s1 + 1) s1, out1).

(** Every launch record of the run was built by [Reader]. *)
Definition fed_by_reader (strptime_ymd : string -> option datetime) (es : list Env)
  : Prop :=
  forall e r, In e es -> launch_data e = Some r ->
    exists config_symbol line date isLive,
      Reader strptime_ymd config_symbol line date isLive = Some r.

(* ================================================================= *)
(** ** Concrete library instances and inputs, for evaluation *)

(** [int] on an unsigned decimal numeral.  Python accepts more (a sign,
    surrounding white space, underscores); this instance is applied only
    to strings on which both agree. *)
Definition digit (c : ascii) : option Z :=
  let n := Z.of_nat (nat_of_ascii c) in
  if (48 <=? n) && (n <=? 57) then Some (n - 48) else None.

Fixpoint digits (s : string) (acc : Z) : option Z :=
  match s with
  | EmptyString => Some acc
  | String c r =>
      match digit c with
      | Some d => digits r (10 * acc + d)
      | None => None
      end
  end.

Definition decimal_int (s : string) : option Z :=
  match s with
  | EmptyString => None
  | _ => digits s 0
  end.

(** [strptime] on the zero-padded form [YYYY-MM-DD].  Python also accepts
    months and days without the leading zero; this instance is applied
    only to zero-padded dates. *)
Definition is_leap (y : Z) : bool :=
  (y mod 4 =? 0) && (negb (y mod 100 =? 0) || (y mod 400 =? 0)).

Definition days_in_month (y m : Z) : Z :=
  if m =? 2 then (if is_leap y then 29 else 28)
  else if (m =? 4) || (m =? 6) || (m =? 9) || (m =? 11) then 30 else 31.

Fixpoint days_before_month (y : Z) (m : nat) : Z :=
  match m with
  | O => 0
  | S m' => days_before_month y m' + days_in_month y (Z.of_nat m)
  end.

Definition ymd2ord (y m d : Z) : Z :=
  days_before_year y + days_before_month y (Z.to_nat (m - 1)) + d.

Definition padded_ymd (s : string) : option datetime :=
  if negb ((String.length s =? 10)%nat
           && String.eqb (substring 4 1 s) "-" && String.eqb (substring 7 1 s) "-")
  then None
  else
    match decimal_int (substring 0 4 s), decimal_int (substring 5 2 s),
          decimal_int (substring 8 2 s) with
    | Some y, Some m, Some d =>
        if (1 <=? y) && (1 <=? m) && (m <=? 12) && (1 <=? d) && (d <=? days_in_month y m)
        then Some (midnight (ymd2ord y m d)) else None
    | _, _, _ => None
    end.

(** Indicator values under which rules 1 to 4 hold at the given price:
    RSI 38, MACD 0.5 over its signal 0.3, SMA20 = 95% and SMA50 = 90% of
    the price, lower band at 80% of it. *)
Definition bullish (price : Q) : Indicators :=
  {| rsi_ready := true; macd_ready := true;
     sma_fast_ready := true; sma_slow_ready := true;
     rsi_val := 38; macd_val := 5 # 10; macd_signal := 3 # 10; macd_hist := 2 # 10;
     sma_fast_val := price * (95 # 100); sma_slow_val := price * (90 # 100);
     bb_lower := price * (80 # 100); bb_middle := price |}.

(** Midnight of 2024-01-01 (a Monday, ISO week 1) plus [n] days. *)
Definition jan2024 (n : Z) : datetime := midnight (738886 + n).

(** A call with an RKLB bar at [price] and no launch record. *)
Definition bar (day : Z) (price : Q) (invested : bool) (cash : Q) : Env :=
  {| IsWarmingUp := false; Time := jan2024 day; launch_data := None;
     rklb_in_data := true; Price := price; Invested := invested;
     Cash := cash; ind := bullish price |}.

(** A call that carries a launch record and no RKLB bar. *)
Definition launch_day (day : Z) (l : RocketLabLaunch) : Env :=
  {| IsWarmingUp := false; Time := jan2024 day; launch_data := Some l;
     rklb_in_data := false; Price := 0; Invested := false;
     Cash := 1000; ind := bullish 0 |}.

(** A call with neither. *)
Definition quiet_day (day : Z) : Env :=
  {| IsWarmingUp := false; Time := jan2024 day; launch_data := None;
     rklb_in_data := false; Price := 0; Invested := false;
     Cash := 1000; ind := bullish 0 |}.

Definition electron_line : string := "2024-01-03, Four Of A Kind, 43, Success".

(** The record [Reader] builds from [electron_line]. *)
Definition electron_launch : RocketLabLaunch :=
  {| l_Symbol := "RKLBLAUNCHES"; l_Time := add_hours (jan2024 2) 12; Value := 2;
     Mission := "Four Of A Kind"; FlightNo := "43"; Outcome := "Success";
     DaysToLaunch := "0" |}.

(** A launch record, then three calls without one. *)
Definition launch_then_three_days : list Env :=
  [ launch_day 2 electron_launch; quiet_day 3; quiet_day 4; quiet_day 5 ].

(** Six entry opportunities within ISO week 1 of 2024, each of the first
    five followed by a bar that takes profit at 112, and a seventh
    opportunity on the Monday of week 2. *)
Definition six_opportunities : list Env :=
  [ bar 0 100 false 1000; bar 1 112 true 100;
    bar 1 100 false 1000; bar 2 112 true 100;
    bar 2 100 false 1000; bar 3 112 true 100;
    bar 3 100 false 1000; bar 4 112 true 100;
    bar 4 100 false 1000; bar 5 112 true 100;
    bar 5 100 false 1000 ].

Definition next_monday : Env := bar 7 100 false 1000.

(** The time-stop scenario on trading days: bought at 50 on Monday
    2024-01-01, then one bar at 51 on each trading day up to Thursday
    2024-01-11, the eighth bar after the entry. *)
Definition trading_day_scenario : list Env :=
  bar 0 50 false 1000
  :: map (fun day => bar day 51 true 50) [1; 2; 3; 4; 7; 8; 9; 10].

(** The trailing-stop scenario: bought at 100, then 106, then 102. *)
Definition trailing_scenario : list Env :=
  [ bar 0 100 false 1000; bar 1 106 true 100; bar 2 102 true 100 ].

(** A position entered at 100 ten days before [jan2024 10]. *)
Definition open_at_100 : State := set_position 100 (Some (jan2024 0)) Initialize.

(* ================================================================= *)
(** ** Further vocabulary for statements about calls and runs *)

(** A call past the warm-up that carries no launch record. *)
Definition quiet (e : Env) : Prop :=
  IsWarmingUp e = false /\ launch_data e = None.

(** The state after the last completed call of a run. *)
Definition final_state (s : State) (tr : list (State * list Action)) : State :=
  last (map fst tr) s.

(** Everything a run emitted, in order. *)
Definition all_actions (tr : list (State * list Action)) : list Action :=
  flat_map snd tr.

(** The test of [ManagePosition] behind each exit, with the earlier tests
    having failed. *)
Definition exit_condition (s : State) (price : Q) (now : datetime) (r : ExitReason)
  : Prop :=
  match r with
  | STOP_LOSS => (pnl_pct s price <= - stop_loss_pct s)%Q
  | TAKE_PROFIT =>
      (- stop_loss_pct s < pnl_pct s price)%Q
      /\ (take_profit_pct s <= pnl_pct s price)%Q
  | TIME_STOP =>
      (- stop_loss_pct s < pnl_pct s price)%Q
      /\ (pnl_pct s price < take_profit_pct s)%Q
      /\ max_hold_days s <= days_held s now
  | TRAILING_STOP => False
  end.

(** The entry record is either clear or complete. *)
Definition position_consistent (s : State) : Prop :=
  (entry_price s = 0%Q /\ entry_date s = None)
  \/ ((0 < entry_price s)%Q /\ entry_date s <> None).

(** A call past the warm-up. *)
Definition live (e : Env) : bool := negb (IsWarmingUp e).

(** The tracker after [k] calls that only age it. *)
Definition aged (s : State) (k : nat) : bool * Z * Z * option string :=
  (upcoming_launch s, days_to_launch s, days_since_launch s + Z.of_nat k,
   last_launch_outcome s).

(** How often a character occurs in a string. *)
Fixpoint count_char (c : ascii) (s : string) : nat :=
  match s with
  | EmptyString => 0
  | String x r => ((if Ascii.eqb x c then 1 else 0) + count_char c r)%nat
  end.

(** The string does not begin, respectively end, with white space. *)
Definition head_ok (s : string) : Prop :=
  match s with
  | EmptyString => True
  | String c _ => isspace c = false
  end.

Fixpoint last_ok (s : string) : Prop :=
  match s with
  | EmptyString => True
  | String c EmptyString => isspace c = false
  | String _ r => last_ok r
  end.

(** Four fields joined by commas, as a line of the launch file. *)
Definition csv_line (d m f o : string) : string :=
  (d ++ String "," (m ++ String "," (f ++ String "," o)))%string.

(** The call makes [OnData] reach [int] on a string it rejects. *)
Definition bad_upcoming_record (int_of_str : string -> option Z) (e : Env) : Prop :=
  IsWarmingUp e = false
  /\ exists l, launch_data e = Some l /\ Value l = 1
               /\ int_of_str (DaysToLaunch l) = None.

(** An upcoming-launch record whose day count is not a number. *)
Definition garbled_upcoming : RocketLabLaunch :=
  {| l_Symbol := "RKLBLAUNCHES"; l_Time := add_hours (jan2024 2) 12; Value := 1;
     Mission := "Four Of A Kind"; FlightNo := "43"; Outcome := "";
     DaysToLaunch := "soon" |}.

(* ================================================================= *)
(** ** Basic facts about the primitives *)

Lemma leb_iff (x y : Q) : leb x y = true <-> (x <= y)%Q.
Proof. unfold leb. apply Qle_bool_iff. Qed.

Lemma leb_false_iff (x y : Q) : leb x y = false <-> (y < x)%Q.
Proof.
  rewrite <- Bool.not_true_iff_false, leb_iff.
  split; intro H; [apply Qnot_le_lt | apply Qlt_not_le]; exact H.
Qed.

Lemma ltb_iff (x y : Q) : ltb x y = true <-> (x < y)%Q.
Proof.
  unfold ltb. rewrite Bool.negb_true_iff. apply (leb_false_iff y x).
Qed.

Lemma ltb_false_iff (x y : Q) : ltb x y = false <-> (y <= x)%Q.
Proof.
  unfold ltb. rewrite Bool.negb_false_iff. apply (leb_iff y x).
Qed.

Lemma truediv_pos (a b : Q) : (0 < b)%Q -> truediv a b = Ok (a / b)%Q.
Proof.
  intro Hb. unfold truediv.
  destruct (Qeq_bool b 0) eqn:E; [|reflexivity].
  apply Qeq_bool_iff in E. rewrite E in Hb. exfalso. revert Hb. apply Qlt_irrefl.
Qed.

Lemma guarded_truediv_pos (a b : Q) : (0 < b)%Q -> guarded_truediv a b = Ok (a / b)%Q.
Proof.
  intro Hb. unfold guarded_truediv.
  destruct (Qle_bool b 0) eqn:E; [|reflexivity].
  apply Qle_bool_iff in E. exfalso. apply (Qlt_not_le _ _ Hb E).
Qed.

(** A relative gain above [c] puts the price above [e * (1 + c)]. *)
Lemma gain_above (e p c : Q) :
  (0 < e)%Q -> (c < (p - e) / e)%Q -> (e * (1 + c) < p)%Q.
Proof.
  intros He Hc.
  assert (Hne : ~ (e == 0)%Q) by (intro Hz; rewrite Hz in He; revert He; apply Qlt_irrefl).
  assert (Hq : ((p - e) / e * e == p - e)%Q) by (field; exact Hne).
  assert (Hm : (0 < ((p - e) / e - c) * e)%Q).
  { apply Qmult_lt_0_compat; [|exact He].
    rewrite <- (Qplus_opp_r c). apply Qplus_lt_l. exact Hc. }
  set (q := ((p - e) / e)%Q) in *.
  lra.
Qed.

(** The activation test of the trailing stop excludes its firing test. *)
Lemma trailing_tests_exclusive (e p : Q) :
  (0 < e)%Q -> ltb (5 # 100) ((p - e) / e) = true -> leb p (e * (103 # 100)) = false.
Proof.
  intros He Hact. apply ltb_iff in Hact. apply leb_false_iff.
  pose proof (gain_above e p (5 # 100) He Hact) as H. lra.
Qed.

Lemma int_of_float_floor (x : Q) :
  (0 <? int_of_float x) = (0 <? Qfloor x)
  /\ (0 < Qfloor x -> int_of_float x = Qfloor x).
Proof.
  destruct x as [n d]. unfold int_of_float, Qfloor. cbn [Qnum Qden].
  destruct (Z.le_gt_cases 0 n) as [Hn | Hn].
  - rewrite (Z.quot_div_nonneg n (Z.pos d)) by lia. split; reflexivity.
  - assert (Hq : Z.quot n (Z.pos d) <= 0).
    { replace n with (- (- n)) by lia.
      rewrite Z.quot_opp_l by lia.
      pose proof (Z.quot_pos (- n) (Z.pos d)). lia. }
    assert (Hf : n / Z.pos d <= 0).
    { pose proof (Z.div_le_mono n 0 (Z.pos d)) as H.
      rewrite Z.div_0_l in H by lia. apply H; lia. }
    split.
    + transitivity false; [|symmetry]; apply Z.ltb_ge; assumption.
    + intro Hpos. exfalso. lia.
Qed.

(* ================================================================= *)
(** ** How each piece of [OnData] behaves *)

Ltac break_match_in H :=
  match type of H with
  | context [match ?x with _ => _ end] => destruct x eqn:?
  end.

Ltac inv_ok H := inversion H; subst; clear H.

Lemma exit_reasons_app (a b : list Action) :
  exit_reasons (a ++ b) = exit_reasons a ++ exit_reasons b.
Proof. unfold exit_reasons. apply flat_map_app. Qed.

Lemma entries_app (a b : list Action) : entries (a ++ b) = entries a ++ entries b.
Proof. unfold entries. apply flat_map_app. Qed.

Lemma orders_app (a b : list Action) : orders (a ++ b) = orders a ++ orders b.
Proof. unfold orders. apply filter_app. Qed.

Section ManagePositionFacts.

Variable div : Q -> Q -> result Q.

(** The guard on [entry_price] returns before anything else happens,
    whatever the division is. *)
Lemma ManagePosition_invalid (s : State) (price : Q) (now : datetime) :
  (entry_price s <= 0)%Q -> ManagePosition div s price now = Ok (s, []).
Proof.
  intro H. unfold ManagePosition. apply leb_iff in H. rewrite H. reflexivity.
Qed.

(** Past the guard, the outcome is decided by the first three tests: the
    trailing-stop branch never adds a case. *)
Lemma ManagePosition_open (s : State) (price : Q) (now : datetime) :
  (0 < entry_price s)%Q ->
  div (price - entry_price s)%Q (entry_price s) = Ok (pnl_pct s price) ->
  ManagePosition div s price now =
  Ok (let pnl := pnl_pct s price in
      let dh := days_held s now in
      if leb pnl (- stop_loss_pct s) then exit_with STOP_LOSS s price pnl dh
      else if leb (take_profit_pct s) pnl then exit_with TAKE_PROFIT s price pnl dh
      else if max_hold_days s <=? dh then exit_with TIME_STOP s price pnl dh
      else (s, [])).
Proof.
  intros Hpos Hdiv. unfold ManagePosition.
  apply leb_false_iff in Hpos. rewrite Hpos, Hdiv. cbn [bind].
  fold (days_held s now). cbv zeta.
  destruct (leb (pnl_pct s price) (- stop_loss_pct s)); [reflexivity|].
  destruct (leb (take_profit_pct s) (pnl_pct s price)); [reflexivity|].
  destruct (max_hold_days s <=? days_held s now); [reflexivity|].
  destruct (ltb (5 # 100) (pnl_pct s price)) eqn:Hact; [|reflexivity].
  apply leb_false_iff in Hpos.
  rewrite (trailing_tests_exclusive _ _ Hpos Hact). reflexivity.
Qed.

End ManagePositionFacts.

Lemma ManagePosition_total (s : State) (price : Q) (now : datetime) :
  exists s' out, ManagePosition truediv s price now = Ok (s', out).
Proof.
  destruct (Qlt_le_dec 0 (entry_price s)) as [Hpos | Hle].
  - rewrite (ManagePosition_open truediv s price now Hpos (truediv_pos _ _ Hpos)).
    cbv zeta. repeat match goal with |- context [if ?c then _ else _] => destruct c end;
      eexists; eexists; reflexivity.
  - rewrite (ManagePosition_invalid truediv s price now Hle). eauto.
Qed.

(** What [ManagePosition] can emit and do to the state. *)
Lemma ManagePosition_shape (s s' : State) (price : Q) (now : datetime) (out : list Action) :
  ManagePosition truediv s price now = Ok (s', out) ->
  (s' = s /\ out = [])
  \/ (exists r, r <> TRAILING_STOP /\ (0 < entry_price s)%Q /\ s' = ResetPosition s
                /\ out = [Liquidate; Log (LogExit r price (pnl_pct s price) (days_held s now))]).
Proof.
  intro H.
  destruct (Qlt_le_dec 0 (entry_price s)) as [Hpos | Hle].
  - rewrite (ManagePosition_open truediv s price now Hpos (truediv_pos _ _ Hpos)) in H.
    cbv zeta in H. unfold exit_with in H.
    repeat break_match_in H; inv_ok H;
      solve [ left; split; reflexivity
            | right; eexists; repeat split; try eassumption; discriminate ].
  - rewrite (ManagePosition_invalid truediv s price now Hle) in H. inv_ok H.
    left; split; reflexivity.
Qed.

Section EngineFacts.

Variable int_of_str : string -> option Z.

Lemma process_launch_shape (s s1 : State) (d : option RocketLabLaunch) (out1 : list Action) :
  process_launch int_of_str s d = Ok (s1, out1) ->
  same_trading s s1 /\ signal_log s1 = signal_log s
  /\ orders out1 = [] /\ entries out1 = [] /\ exit_reasons out1 = [].
Proof.
  unfold process_launch, same_trading. intro H.
  repeat break_match_in H; try discriminate; inv_ok H; cbn; repeat split; reflexivity.
Qed.

Lemma process_launch_total (s : State) (e : Env) :
  launch_ok int_of_str e ->
  exists s1 out1, process_launch int_of_str s (launch_data e) = Ok (s1, out1).
Proof.
  unfold launch_ok, process_launch. intro H.
  destruct (launch_data e) as [l|]; [|eauto].
  destruct (Value l =? 1) eqn:E1.
  - apply Z.eqb_eq in E1. specialize (H E1).
    destruct (int_of_str (DaysToLaunch l)); [eauto | contradiction].
  - destruct (Value l =? 2); eauto.
Qed.

(** The tracker attributes after the launch block. *)
Lemma process_launch_tracker (s s1 : State) (d : option RocketLabLaunch) (out1 : list Action) :
  process_launch int_of_str s d = Ok (s1, out1) ->
  match d with
  | Some l =>
      if Value l =? 1 then upcoming_launch s1 = true
                           /\ days_since_launch s1 = days_since_launch s
      else if Value l =? 2 then upcoming_launch s1 = false
                                /\ days_since_launch s1 = 0
                                /\ last_launch_outcome s1 = Some (Outcome l)
      else s1 = s
  | None => s1 = s
  end.
Proof.
  unfold process_launch. intro H.
  destruct d as [l|]; [|inv_ok H; reflexivity].
  destruct (Value l =? 1).
  - destruct (int_of_str (DaysToLaunch l)); [|discriminate]. inv_ok H. cbn. auto.
  - destruct (Value l =? 2); inv_ok H; cbn; auto.
Qed.

Lemma reset_weekly_counter_shape (s : State) (now : datetime) :
  let s0 := reset_weekly_counter s now in
  last_week s0 = isocalendar_week now
  /\ trades_this_week s0 = trades_at_gate s now
  /\ entry_price s0 = entry_price s /\ entry_date s0 = entry_date s
  /\ stop_loss_pct s0 = stop_loss_pct s /\ take_profit_pct s0 = take_profit_pct s
  /\ max_hold_days s0 = max_hold_days s
  /\ max_trades_per_week s0 = max_trades_per_week s
  /\ tracker_of s0 = tracker_of s.
Proof.
  unfold reset_weekly_counter, trades_at_gate. cbv zeta.
  destruct (isocalendar_week now =? last_week s) eqn:E; cbn.
  - apply Z.eqb_eq in E. repeat split; auto.
  - repeat split; reflexivity.
Qed.

(** The entry block, with Python's division and a positive price. *)
Lemma generate_entry_spec (s : State) (e : Env) :
  (0 < Price e)%Q ->
  generate_entry truediv s e =
  Ok (if (max_trades_per_week s <=? trades_this_week s) || negb (indicators_ready (ind e))
      then (s, [])
      else
        let score := fst (CalculateSignalScore s (Price e) (ind e)) in
        let logged := snd (CalculateSignalScore s (Price e) (ind e)) in
        let shares := Qfloor (Cash e * (95 # 100) / Price e) in
        if (3 <=? score) && (0 <? shares) then
          (set_trades_this_week (trades_this_week s + 1)
             (set_position (Price e) (Some (Time e)) s),
           logged ++ [MarketOrder shares;
                      Log (LogBuy shares (Price e) score
                                  (rsi_val (ind e)) (macd_val (ind e)))])
        else (s, logged)).
Proof.
  intro Hp. unfold generate_entry, indicators_ready.
  destruct (max_trades_per_week s <=? trades_this_week s); [reflexivity|].
  cbn [orb].
  destruct (negb (rsi_ready (ind e) && macd_ready (ind e)
                  && sma_fast_ready (ind e) && sma_slow_ready (ind e))); [reflexivity|].
  destruct (CalculateSignalScore s (Price e) (ind e)) as [score logged].
  cbn [fst snd]. cbv zeta.
  destruct (3 <=? score); [|reflexivity].
  rewrite (truediv_pos _ _ Hp). cbn [bind andb].
  destruct (int_of_float_floor (Cash e * (95 # 100) / Price e)) as [Hb Hv].
  rewrite Hb.
  destruct (0 <? Qfloor (Cash e * (95 # 100) / Price e)) eqn:E; [|reflexivity].
  apply Z.ltb_lt in E. rewrite (Hv E). reflexivity.
Qed.

Lemma CalculateSignalScore_out (s : State) (price : Q) (i : Indicators) :
  let out := snd (CalculateSignalScore s price i) in
  orders out = [] /\ entries out = [] /\ exit_reasons out = [].
Proof.
  unfold CalculateSignalScore.
  destruct (score_and_reasons s price i) as [score reasons]. cbn [snd].
  destruct (3 <=? score); cbn; auto.
Qed.

Lemma generate_entry_shape (s s' : State) (e : Env) (out : list Action) :
  (0 < Price e)%Q ->
  generate_entry truediv s e = Ok (s', out) ->
  exit_reasons out = []
  /\ ((s' = s /\ orders out = [] /\ entries out = [])
      \/ (exists shares,
            0 < shares /\ trades_this_week s < max_trades_per_week s
            /\ s' = set_trades_this_week (trades_this_week s + 1)
                      (set_position (Price e) (Some (Time e)) s)
            /\ orders out = [MarketOrder shares] /\ entries out = [shares])).
Proof.
  intros Hp H. rewrite (generate_entry_spec s e Hp) in H.
  destruct (CalculateSignalScore_out s (Price e) (ind e)) as (Ho & He & Hx).
  cbv zeta in *.
  destruct (max_trades_per_week s <=? trades_this_week s) eqn:Ecap; cbn [orb] in H.
  { inv_ok H. cbn. auto. }
  destruct (negb (indicators_ready (ind e))).
  { inv_ok H. cbn. auto. }
  apply Z.leb_gt in Ecap.
  destruct ((3 <=? fst (CalculateSignalScore s (Price e) (ind e)))
            && (0 <? Qfloor (Cash e * (95 # 100) / Price e))) eqn:E; inv_ok H.
  - apply andb_true_iff in E. destruct E as [_ E]. apply Z.ltb_lt in E.
    rewrite exit_reasons_app, orders_app, entries_app, Ho, He, Hx. cbn.
    split; [reflexivity|]. right. eexists. repeat split; try eassumption.
  - auto.
Qed.

(** The cases of one call. *)
Lemma OnData_inv (div : Q -> Q -> result Q) (s s' : State) (e : Env) (out : list Action) :
  OnData int_of_str div s e = Ok (s', out) ->
  (IsWarmingUp e = true /\ s' = s /\ out = [])
  \/ (IsWarmingUp e = false
      /\ exists s1 out1,
          process_launch int_of_str (reset_weekly_counter s (Time e)) (launch_data e)
          = Ok (s1, out1)
          /\ let s2 := set_days_since_launch (days_since_launch s1 + 1) s1 in
             (((rklb_in_data e = false \/ (Price e <= 0)%Q) /\ s' = s2 /\ out = out1)
              \/ (rklb_in_data e = true /\ (0 < Price e)%Q
                  /\ exists out2,
                      out = out1 ++ out2
                      /\ if Invested e
                         then ManagePosition div s2 (Price e) (Time e) = Ok (s', out2)
                         else generate_entry div s2 e = Ok (s', out2)))).
Proof.
  unfold OnData. intro H.
  destruct (IsWarmingUp e); [inv_ok H; left; auto|].
  right. split; [reflexivity|].
  destruct (process_launch int_of_str (reset_weekly_counter s (Time e)) (launch_data e))
    as [[s1 out1]|] eqn:Hl; [|discriminate].
  cbn [bind] in H. exists s1, out1. split; [reflexivity|]. cbv zeta.
  destruct (rklb_in_data e); cbn [negb] in H; [|inv_ok H; left; auto].
  destruct (leb (Price e) 0) eqn:Hp.
  { apply leb_iff in Hp. inv_ok H. left; auto. }
  apply leb_false_iff in Hp. right. split; [reflexivity|]. split; [exact Hp|].
  destruct (Invested e).
  - destruct (ManagePosition div _ (Price e) (Time e)) as [[s3 out2]|]; [|discriminate].
    cbn [bind] in H. inv_ok H. exists out2; auto.
  - destruct (generate_entry div _ e) as [[s3 out2]|]; [|discriminate].
    cbn [bind] in H. inv_ok H. exists out2; auto.
Qed.

(** A call raises only inside [int]. *)
Lemma OnData_total (s : State) (e : Env) :
  launch_ok int_of_str e ->
  exists s' out, OnData int_of_str truediv s e = Ok (s', out).
Proof.
  intro Hok. unfold OnData.
  destruct (IsWarmingUp e); [eauto|].
  destruct (process_launch_total (reset_weekly_counter s (Time e)) e Hok) as (s1 & out1 & Hl).
  rewrite Hl. cbn [bind].
  destruct (rklb_in_data e); cbn [negb]; [|eauto].
  destruct (leb (Price e) 0) eqn:Hp; [eauto|].
  apply leb_false_iff in Hp.
  destruct (Invested e).
  - destruct (ManagePosition_total (set_days_since_launch (days_since_launch s1 + 1) s1)
               (Price e) (Time e)) as (s3 & out2 & Hm).
    rewrite Hm. cbn [bind]. eauto.
  - rewrite (generate_entry_spec _ e Hp).
    match goal with |- context [bind (Ok ?x) _] => destruct x end.
    cbn [bind]. eauto.
Qed.

End EngineFacts.

(* ================================================================= *)
(** ** The state at the trading part of a call *)

Section GateState.

Variable int_of_str : string -> option Z.

(** After the weekly reset, the launch block and the increment, only the
    governor and tracker attributes may differ from the start of the call. *)
Lemma gate_state (s s1 : State) (e : Env) (out1 : list Action) :
  process_launch int_of_str (reset_weekly_counter s (Time e)) (launch_data e)
  = Ok (s1, out1) ->
  let s2 := set_days_since_launch (days_since_launch s1 + 1) s1 in
  (entry_price s2 = entry_price s /\ entry_date s2 = entry_date s
   /\ stop_loss_pct s2 = stop_loss_pct s /\ take_profit_pct s2 = take_profit_pct s
   /\ max_hold_days s2 = max_hold_days s
   /\ max_trades_per_week s2 = max_trades_per_week s)
  /\ trades_this_week s2 = trades_at_gate s (Time e)
  /\ last_week s2 = isocalendar_week (Time e)
  /\ orders out1 = [] /\ entries out1 = [] /\ exit_reasons out1 = [].
Proof.
  intro Hl. cbv zeta.
  destruct (process_launch_shape int_of_str _ _ _ _ Hl)
    as ((E1 & E2 & E3 & E4 & E5 & E6 & E7 & E8) & _ & Ho & He & Hx).
  destruct (reset_weekly_counter_shape s (Time e))
    as (R1 & R2 & R3 & R4 & R5 & R6 & R7 & R8 & _).
  cbn. repeat split; try congruence; assumption.
Qed.

Lemma pnl_pct_ext (s s' : State) (price : Q) :
  entry_price s' = entry_price s -> pnl_pct s' price = pnl_pct s price.
Proof. unfold pnl_pct. intros ->. reflexivity. Qed.

Lemma days_held_ext (s s' : State) (now : datetime) :
  entry_date s' = entry_date s -> days_held s' now = days_held s now.
Proof. unfold days_held. intros ->. reflexivity. Qed.

(** No call of any run emits more than one exit, and never the trailing one. *)
Lemma OnData_exit_reasons (s s' : State) (e : Env) (out : list Action) :
  OnData int_of_str truediv s e = Ok (s', out) ->
  exit_reasons out = []
  \/ (exists r, r <> TRAILING_STOP /\ exit_reasons out = [r] /\ orders out = [Liquidate]).
Proof.
  intro H. apply OnData_inv in H.
  destruct H as [(_ & _ & ->) | (_ & s1 & out1 & Hl & H)]; [left; reflexivity|].
  destruct (gate_state _ _ _ _ Hl) as (_ & _ & _ & Ho & _ & Hx). cbv zeta in H.
  destruct H as [(_ & _ & ->) | (_ & Hp & out2 & -> & H)]; [left; exact Hx|].
  rewrite exit_reasons_app, orders_app, Hx, Ho. cbn [app].
  destruct (Invested e).
  - apply ManagePosition_shape in H.
    destruct H as [(_ & ->) | (r & Hr & _ & _ & ->)]; [left; reflexivity|].
    right. exists r. cbn. auto.
  - apply (generate_entry_shape _ _ _ _ Hp) in H. left. apply H.
Qed.

End GateState.

(* ================================================================= *)
(** ** The trailing stop *)

(** C1.  The scenario of the specification, run from [Initialize]: the
    strategy buys 9 shares at 100, sees 106 on the next call and 102 on the
    one after.  No call liquidates: at 102 the gain is 2%, the trailing
    branch is not even entered, and the position stays open at its entry
    price of 100.  The trailing-stop exit that the scenario expects does not
    happen. *)
Theorem trailing_scenario_keeps_position :
  map (fun so => (entry_price (fst so), orders (snd so), exit_reasons (snd so)))
      (trace decimal_int truediv Initialize trailing_scenario)
  = [ (100%Q, [MarketOrder 9], []); (100%Q, [], []); (100%Q, [], []) ].
Proof. vm_compute. reflexivity. Qed.

(** C2.  The trailing-stop branch of [ManagePosition] is dead.  For a
    position with a positive entry price, the activation test
    [pnl_pct > 0.05] makes the firing test [price <= entry_price * 1.03]
    false; [ManagePosition] always returns and never logs a trailing-stop
    exit; and no completed call of any run, from any state, logs one. *)
Theorem trailing_stop_never_fires
  (int_of_str : string -> option Z) (s : State) (price : Q) :
  ((0 < entry_price s)%Q ->
   ltb (5 # 100) (pnl_pct s price) = true ->
   leb price (entry_price s * (103 # 100)) = false)
  /\ (forall now, exists s' out,
         ManagePosition truediv s price now = Ok (s', out)
         /\ ~ In TRAILING_STOP (exit_reasons out))
  /\ (forall es,
         Forall (fun so => ~ In TRAILING_STOP (exit_reasons (snd so)))
                (trace int_of_str truediv s es)).
Proof.
  split; [|split].
  - intros He Hact. exact (trailing_tests_exclusive _ _ He Hact).
  - intro now. destruct (ManagePosition_total s price now) as (s' & out & H).
    exists s', out. split; [exact H|].
    apply ManagePosition_shape in H.
    destruct H as [(_ & ->) | (r & Hr & _ & _ & ->)]; cbn; [tauto|].
    intros [E | []]. apply Hr. exact E.
  - intro es. revert s. induction es as [|e es IH]; intro s; cbn [trace].
    + constructor.
    + destruct (OnData int_of_str truediv s e) as [[s' out]|] eqn:H; [|constructor].
      constructor; [|apply IH]. cbn [snd].
      destruct (OnData_exit_reasons _ _ _ _ _ H) as [-> | (r & Hr & -> & _)]; cbn; [tauto|].
      intros [E | []]. apply Hr. exact E.
Qed.

Lemma trailing_stop_never_fires_witness :
  (0 < entry_price open_at_100)%Q
  /\ ltb (5 # 100) (pnl_pct open_at_100 106) = true
  /\ leb 106 (entry_price open_at_100 * (103 # 100)) = false.
Proof.
  split; [reflexivity|]. split; [reflexivity|].
  apply (proj1 (trailing_stop_never_fires decimal_int open_at_100 106)); reflexivity.
Defined.

(* ================================================================= *)
(** ** Exit evaluation *)

(** C5.  Past the guard on [entry_price], and with the thresholds of
    [Initialize], [ManagePosition] produces exactly the first trigger, in
    the order stop-loss, take-profit, time-stop, trailing-stop, whose
    condition holds: one [Liquidate] with that reason and a reset position,
    or nothing and an unchanged state.  At most one exit is produced, and a
    gain of -5% or less always exits as [STOP_LOSS], whatever the later
    conditions are.  A whole call of [OnData] never emits more than one
    exit either. *)
Theorem exit_evaluation_order
  (int_of_str : string -> option Z) (s : State) (price : Q) (now : datetime) :
  (default_config s -> (0 < entry_price s)%Q ->
   let fired := first_match (spec_exit_triggers (entry_price s) price (days_held s now)) in
   exists s' out,
     ManagePosition truediv s price now = Ok (s', out)
     /\ exit_reasons out = intent_list fired
     /\ orders out = map (fun _ => Liquidate) (intent_list fired)
     /\ s' = match fired with Some _ => ResetPosition s | None => s end
     /\ (List.length (exit_reasons out) <= 1)%nat
     /\ ((pnl_pct s price <= - (5 # 100))%Q -> exit_reasons out = [STOP_LOSS]))
  /\ (forall e s' out,
         OnData int_of_str truediv s e = Ok (s', out) ->
         (List.length (exit_reasons out) <= 1)%nat).
Proof.
  split.
  - intros (Hsl & Htp & Hmh & _) Hpos. cbv zeta.
    rewrite (ManagePosition_open truediv s price now Hpos (truediv_pos _ _ Hpos)).
    cbv zeta. rewrite Hsl, Htp, Hmh.
    unfold spec_exit_triggers, first_match. fold (pnl_pct s price).
    destruct (leb (pnl_pct s price) (- (5 # 100))) eqn:C1.
    { eexists; eexists; split; [reflexivity|]. cbn. repeat split; auto. }
    destruct (leb (10 # 100) (pnl_pct s price)) eqn:C2.
    { eexists; eexists; split; [reflexivity|]. cbn. repeat split; auto.
      intro H. apply leb_iff in H. congruence. }
    destruct (10 <=? days_held s now) eqn:C3.
    { eexists; eexists; split; [reflexivity|]. cbn. repeat split; auto.
      intro H. apply leb_iff in H. congruence. }
    assert (C4 : ltb (5 # 100) (pnl_pct s price)
                 && leb price (entry_price s * (103 # 100)) = false).
    { destruct (ltb (5 # 100) (pnl_pct s price)) eqn:Hact; [|reflexivity].
      cbn [andb]. exact (trailing_tests_exclusive _ _ Hpos Hact). }
    rewrite C4.
    eexists; eexists; split; [reflexivity|]. cbn. repeat split; auto.
    intro H. apply leb_iff in H. congruence.
  - intros e s' out H.
    destruct (OnData_exit_reasons _ _ _ _ _ H) as [-> | (r & _ & -> & _)]; cbn; lia.
Qed.

(** Stop-loss and time-stop both hold (entered at 100, now 90, held 15
    days): the exit is the stop-loss. *)
Lemma exit_evaluation_order_witness :
  exists s' out,
    ManagePosition truediv open_at_100 90 (jan2024 15) = Ok (s', out)
    /\ exit_reasons out = [STOP_LOSS]
    /\ 10 <= days_held open_at_100 (jan2024 15).
Proof.
  assert (Hcfg : default_config open_at_100) by (repeat split; reflexivity).
  assert (Hpos : (0 < entry_price open_at_100)%Q) by reflexivity.
  destruct (proj1 (exit_evaluation_order decimal_int open_at_100 90 (jan2024 15)) Hcfg Hpos)
    as (s' & out & H & Hr & _).
  exists s', out. split; [exact H|]. split; [exact Hr|]. vm_compute. discriminate.
Defined.

(* ================================================================= *)
(** ** Invalid position or price *)

Lemma ManagePosition_guarded (s : State) (price : Q) (now : datetime) :
  ManagePosition guarded_truediv s price now = ManagePosition truediv s price now.
Proof.
  destruct (Qlt_le_dec 0 (entry_price s)) as [Hpos | Hle].
  - rewrite (ManagePosition_open truediv s price now Hpos (truediv_pos _ _ Hpos)).
    apply (ManagePosition_open guarded_truediv s price now Hpos (guarded_truediv_pos _ _ Hpos)).
  - rewrite !ManagePosition_invalid by exact Hle. reflexivity.
Qed.

Lemma generate_entry_guarded (s : State) (e : Env) :
  (0 < Price e)%Q -> generate_entry guarded_truediv s e = generate_entry truediv s e.
Proof.
  intro Hp. unfold generate_entry.
  rewrite (truediv_pos _ _ Hp), (guarded_truediv_pos _ _ Hp). reflexivity.
Qed.

(** C10.  A call on which the price is not positive, or on which a
    position is held while [entry_price] is not positive, returns normally
    without any order or exit and with [entry_price] and [entry_date] as
    they were.  Moreover [OnData] behaves the same when its division
    refuses every non-positive divisor: no division, and in particular not
    the one by [entry_price], is evaluated with such a divisor. *)
Theorem invalid_price_or_position_is_noop
  (int_of_str : string -> option Z) (s : State) (e : Env) :
  (launch_ok int_of_str e ->
   (Price e <= 0)%Q \/ (Invested e = true /\ (entry_price s <= 0)%Q) ->
   exists s' out,
     OnData int_of_str truediv s e = Ok (s', out)
     /\ orders out = [] /\ exit_reasons out = []
     /\ entry_price s' = entry_price s /\ entry_date s' = entry_date s)
  /\ OnData int_of_str guarded_truediv s e = OnData int_of_str truediv s e.
Proof.
  split.
  - intros Hok Hbad.
    destruct (OnData_total int_of_str s e Hok) as (s' & out & H).
    exists s', out. split; [exact H|].
    apply OnData_inv in H.
    destruct H as [(_ & -> & ->) | (_ & s1 & out1 & Hl & H)]; [cbn; auto|].
    destruct (gate_state _ _ _ _ _ Hl) as ((P1 & P2 & _) & _ & _ & Ho & _ & Hx).
    cbv zeta in H.
    destruct H as [(_ & -> & ->) | (_ & Hp & out2 & -> & H)]; [auto|].
    destruct Hbad as [Hle | [Hinv Hle]].
    { exfalso. exact (Qlt_not_le _ _ Hp Hle). }
    rewrite Hinv in H. rewrite <- P1 in Hle.
    rewrite (ManagePosition_invalid truediv _ (Price e) (Time e) Hle) in H.
    inv_ok H. rewrite app_nil_r. auto.
  - unfold OnData.
    destruct (IsWarmingUp e); [reflexivity|].
    destruct (process_launch int_of_str (reset_weekly_counter s (Time e)) (launch_data e))
      as [[s1 out1]|]; [|reflexivity].
    cbn [bind].
    destruct (rklb_in_data e); [|reflexivity]. cbn [negb].
    destruct (leb (Price e) 0) eqn:Hp; [reflexivity|].
    apply leb_false_iff in Hp.
    destruct (Invested e).
    + rewrite ManagePosition_guarded. reflexivity.
    + rewrite (generate_entry_guarded _ e Hp). reflexivity.
Qed.

(** A held position whose [entry_price] is 0, and a bar at price 112 that
    would otherwise take profit on any positive entry below 101. *)
Lemma invalid_price_or_position_is_noop_witness :
  exists s' out,
    OnData decimal_int truediv Initialize (bar 1 112 true 100) = Ok (s', out)
    /\ orders out = [] /\ exit_reasons out = []
    /\ entry_price s' = entry_price Initialize /\ entry_date s' = entry_date Initialize.
Proof.
  apply (proj1 (invalid_price_or_position_is_noop decimal_int Initialize (bar 1 112 true 100))).
  - exact I.
  - right. split; [reflexivity|]. discriminate.
Defined.

(* ================================================================= *)
(** ** The time stop *)

Section TimeStop.

Variable int_of_str : string -> option Z.

(** One managed call with the gain strictly inside (-5%, +10%): it exits,
    as a time stop, exactly when ten days have passed since the entry. *)
Lemma OnData_held (s : State) (x : Env) :
  default_config s -> (0 < entry_price s)%Q -> held_bar int_of_str s x ->
  exists s' out,
    OnData int_of_str truediv s x = Ok (s', out)
    /\ if 10 <=? days_held s (Time x)
       then exit_reasons out = [TIME_STOP] /\ orders out = [Liquidate]
            /\ entry_price s' = 0%Q /\ entry_date s' = None
       else exit_reasons out = [] /\ orders out = []
            /\ entry_price s' = entry_price s /\ entry_date s' = entry_date s
            /\ default_config s'.
Proof.
  intros (Hsl & Htp & Hmh & Hmt) Hpos (Hw & Hok & Hin & Hinv & Hlo & Hhi).
  destruct (OnData_total int_of_str s x Hok) as (s' & out & H).
  exists s', out. split; [exact H|].
  apply OnData_inv in H.
  destruct H as [(Hw' & _) | (_ & s1 & out1 & Hl & H)]; [congruence|].
  destruct (gate_state _ _ _ _ _ Hl) as ((P1 & P2 & P3 & P4 & P5 & P6) & _ & _ & Ho & _ & Hx).
  cbv zeta in H.
  assert (Hprice : (0 < Price x)%Q).
  { pose proof (gain_above _ _ _ Hpos Hlo) as Hg. unfold pnl_pct in Hlo. lra. }
  destruct H as [([Hn | Hle] & _) | (_ & _ & out2 & -> & H)];
    [congruence | exfalso; exact (Qlt_not_le _ _ Hprice Hle) |].
  rewrite Hinv in H.
  set (s2 := set_days_since_launch (days_since_launch s1 + 1) s1) in *.
  assert (Hpos2 : (0 < entry_price s2)%Q) by (rewrite P1; exact Hpos).
  rewrite (ManagePosition_open truediv s2 _ _ Hpos2 (truediv_pos _ _ Hpos2)) in H.
  cbv zeta in H.
  rewrite (pnl_pct_ext s s2 _ P1), (days_held_ext s s2 _ P2), P3, P4, P5, Hsl, Htp, Hmh in H.
  apply Qlt_not_le in Hlo. apply Qlt_not_le in Hhi.
  destruct (leb (pnl_pct s (Price x)) (- (5 # 100))) eqn:C1.
  { apply leb_iff in C1. contradiction. }
  destruct (leb (10 # 100) (pnl_pct s (Price x))) eqn:C2.
  { apply leb_iff in C2. contradiction. }
  rewrite exit_reasons_app, orders_app, Hx, Ho. cbn [app].
  destruct (10 <=? days_held s (Time x)); inv_ok H; cbn.
  - auto.
  - unfold default_config. rewrite P3, P4, P5, P6. repeat split; assumption.
Qed.

End TimeStop.


(* ================================================================= *)
(** ** The signal score *)

Lemma tracker_of_inj (s1 s2 : State) :
  tracker_of s1 = tracker_of s2 ->
  upcoming_launch s1 = upcoming_launch s2 /\ days_to_launch s1 = days_to_launch s2
  /\ days_since_launch s1 = days_since_launch s2
  /\ last_launch_outcome s1 = last_launch_outcome s2.
Proof. unfold tracker_of. intro H. inversion H. auto. Qed.

Lemma score_and_reasons_ext (s1 s2 : State) (price : Q) (i : Indicators) :
  tracker_of s1 = tracker_of s2 ->
  score_and_reasons s1 price i = score_and_reasons s2 price i.
Proof.
  intro H. apply tracker_of_inj in H. destruct H as (H1 & H2 & H3 & H4).
  unfold score_and_reasons. rewrite H1, H2, H3, H4. reflexivity.
Qed.

(** C7.  The score is the number of the seven conditions that hold, so it
    lies in [0,7]; [reasons] holds one entry per condition that holds, in
    the order of evaluation, so its length is the score; the value returned
    by [CalculateSignalScore] is that score; and score and reasons depend
    on the state only through the launch-tracking attributes: two states
    that agree on them give the same result for the same price and
    indicators. *)
Theorem signal_score_counts_predicates (s : State) (price : Q) (i : Indicators) :
  let score := fst (score_and_reasons s price i) in
  let reasons := snd (score_and_reasons s price i) in
  score = count_true (predicates s price i)
  /\ 0 <= score <= 7
  /\ reasons = selected (predicates s price i) (reason_texts s i)
  /\ Z.of_nat (List.length reasons) = score
  /\ fst (CalculateSignalScore s price i) = score
  /\ (forall s2, tracker_of s2 = tracker_of s ->
                 score_and_reasons s2 price i = score_and_reasons s price i
                 /\ CalculateSignalScore s2 price i = CalculateSignalScore s price i).
Proof.
  cbv zeta.
  assert (Hmain :
    fst (score_and_reasons s price i) = count_true (predicates s price i)
    /\ 0 <= fst (score_and_reasons s price i) <= 7
    /\ snd (score_and_reasons s price i)
       = selected (predicates s price i) (reason_texts s i)
    /\ Z.of_nat (List.length (snd (score_and_reasons s price i)))
       = fst (score_and_reasons s price i)).
  { unfold score_and_reasons, predicates, reason_texts, selected, count_true, rule.
    destruct (ltb 30 (rsi_val i) && ltb (rsi_val i) 45);
    destruct (ltb (macd_signal i) (macd_val i) && ltb 0 (macd_hist i));
    destruct (ltb (sma_slow_val i) (sma_fast_val i));
    destruct (ltb (sma_fast_val i) price);
    destruct (ltb price (bb_lower i * (102 # 100)));
    destruct (upcoming_launch s && ((1 <=? days_to_launch s) && (days_to_launch s <=? 5)));
    destruct ((days_since_launch s <=? 3)
              && match last_launch_outcome s with
                 | Some o => (o =? "Success")%string
                 | None => false
                 end);
    cbn; repeat split; solve [reflexivity | lia]. }
  destruct Hmain as (H1 & H2 & H3 & H4).
  repeat split; try assumption; try apply H2.
  - unfold CalculateSignalScore.
    destruct (score_and_reasons s price i). reflexivity.
  - apply score_and_reasons_ext. assumption.
  - unfold CalculateSignalScore.
    rewrite (score_and_reasons_ext s2 s price i) by assumption. reflexivity.
Qed.

(** Two states that differ in the position but not in the tracker. *)
Lemma signal_score_counts_predicates_witness :
  tracker_of open_at_100 = tracker_of Initialize
  /\ score_and_reasons open_at_100 100 (bullish 100)
     = score_and_reasons Initialize 100 (bullish 100)
  /\ fst (score_and_reasons Initialize 100 (bullish 100)) = 4.
Proof.
  split; [reflexivity|]. split; [|reflexivity].
  apply (signal_score_counts_predicates Initialize 100 (bullish 100)). reflexivity.
Defined.

(* ================================================================= *)
(** ** Launch tracking *)

Section Tracker.

Variable int_of_str : string -> option Z.

(** The trading part of a call leaves the tracker as [before_trading]
    made it. *)
Lemma OnData_tracker (s s' : State) (e : Env) (out : list Action) :
  OnData int_of_str truediv s e = Ok (s', out) ->
  IsWarmingUp e = false ->
  exists s1 out1,
    process_launch int_of_str (reset_weekly_counter s (Time e)) (launch_data e)
    = Ok (s1, out1)
    /\ tracker_of s'
       = (upcoming_launch s1, days_to_launch s1, days_since_launch s1 + 1,
          last_launch_outcome s1).
Proof.
  intros H Hw. apply OnData_inv in H.
  destruct H as [(Hw' & _) | (_ & s1 & out1 & Hl & H)]; [congruence|].
  exists s1, out1. split; [exact Hl|]. cbv zeta in H.
  destruct H as [(_ & -> & _) | (_ & Hp & out2 & _ & H)]; [reflexivity|].
  destruct (Invested e).
  - apply ManagePosition_shape in H.
    destruct H as [(-> & _) | (r & _ & _ & -> & _)]; reflexivity.
  - apply (generate_entry_shape _ _ _ _ Hp) in H.
    destruct H as (_ & [(-> & _) | (n & _ & _ & -> & _)]); reflexivity.
Qed.



End Tracker.



(* ================================================================= *)
(** ** Entry *)

Section Entry.

Variable int_of_str : string -> option Z.

Lemma before_trading_inv (s s2 : State) (e : Env) (out1 : list Action) :
  before_trading int_of_str s e = Ok (s2, out1) ->
  exists s1,
    process_launch int_of_str (reset_weekly_counter s (Time e)) (launch_data e)
    = Ok (s1, out1)
    /\ s2 = set_days_since_launch (days_since_launch s1 + 1) s1.
Proof.
  unfold before_trading. intro H.
  destruct (process_launch int_of_str (reset_weekly_counter s (Time e)) (launch_data e))
    as [[s1 o]|]; [|discriminate].
  cbn [bind] in H. inv_ok H. exists s1. auto.
Qed.


End Entry.


(* ================================================================= *)
(** ** The weekly trade counter *)

Section Governor.

Variable int_of_str : string -> option Z.

(** What one completed call past the warm-up does to the governor. *)
Lemma OnData_governor (s s' : State) (e : Env) (out : list Action) :
  OnData int_of_str truediv s e = Ok (s', out) ->
  IsWarmingUp e = false ->
  last_week s' = isocalendar_week (Time e)
  /\ max_trades_per_week s' = max_trades_per_week s
  /\ trades_this_week s'
     = trades_at_gate s (Time e) + Z.of_nat (List.length (entries out))
  /\ (List.length (entries out) <= 1)%nat
  /\ (entries out <> [] -> trades_at_gate s (Time e) < max_trades_per_week s).
Proof.
  intros H Hw. apply OnData_inv in H.
  destruct H as [(Hw' & _) | (_ & s1 & out1 & Hl & H)]; [congruence|].
  destruct (gate_state _ _ _ _ _ Hl) as ((_ & _ & _ & _ & _ & Pm) & Hg & Hlw & _ & He & _).
  cbv zeta in *.
  destruct H as [(_ & -> & ->) | (_ & Hp & out2 & -> & H)].
  { rewrite He. cbn in *. repeat split; try assumption; try lia. intro; congruence. }
  rewrite entries_app, He. cbn [app].
  destruct (Invested e).
  - apply ManagePosition_shape in H.
    destruct H as [(-> & ->) | (r & _ & _ & -> & ->)]; cbn in *;
      (repeat split; try assumption; try lia; intro; congruence).
  - apply (generate_entry_shape _ _ _ _ Hp) in H.
    destruct H as (_ & [(-> & _ & ->) | (n & _ & Hcap & -> & _ & ->)]); cbn in *.
    + repeat split; try assumption; try lia. intro; congruence.
    + rewrite Hg, Pm in Hcap. repeat split; try assumption; lia.
Qed.

Lemma OnData_warming_up (s s' : State) (e : Env) (out : list Action) :
  OnData int_of_str truediv s e = Ok (s', out) ->
  IsWarmingUp e = true -> s' = s /\ out = [].
Proof.
  unfold OnData. intros H Hw. rewrite Hw in H. inv_ok H. auto.
Qed.

Lemma trades_at_gate_range (s : State) (now : datetime) :
  0 <= trades_this_week s <= max_trades_per_week s ->
  0 <= trades_at_gate s now <= max_trades_per_week s.
Proof.
  unfold trades_at_gate. destruct (isocalendar_week now =? last_week s); lia.
Qed.

(** The counter stays between 0 and the cap, and the cap stays put. *)
Lemma OnData_counter_range (s s' : State) (e : Env) (out : list Action) :
  OnData int_of_str truediv s e = Ok (s', out) ->
  0 <= trades_this_week s <= max_trades_per_week s ->
  0 <= trades_this_week s' <= max_trades_per_week s'
  /\ max_trades_per_week s' = max_trades_per_week s.
Proof.
  intros H Hr.
  destruct (IsWarmingUp e) eqn:Hw.
  - destruct (OnData_warming_up _ _ _ _ H Hw) as (-> & _). auto.
  - destruct (OnData_governor _ _ _ _ H Hw) as (_ & Hm & Ht & Hn & Hc).
    pose proof (trades_at_gate_range s (Time e) Hr) as Hg.
    rewrite Hm, Ht. split; [|reflexivity].
    destruct (entries out) as [|n l]; cbn [List.length] in *; [lia|].
    assert (trades_at_gate s (Time e) < max_trades_per_week s) by (apply Hc; discriminate).
    lia.
Qed.

Lemma reachable_counter_range (s : State) :
  reachable int_of_str truediv s ->
  0 <= trades_this_week s <= 5 /\ max_trades_per_week s = 5.
Proof.
  induction 1 as [|s e s' out _ IH H].
  - cbn. lia.
  - destruct IH as (IH & Hm). rewrite <- Hm in IH.
    destruct (OnData_counter_range _ _ _ _ H IH) as (Hr & Hm').
    rewrite Hm' in Hr. rewrite Hm', Hm in *. auto.
Qed.

(** No call assigns the thresholds of [Initialize]. *)
Lemma OnData_config (s s' : State) (e : Env) (out : list Action) :
  OnData int_of_str truediv s e = Ok (s', out) ->
  stop_loss_pct s' = stop_loss_pct s /\ take_profit_pct s' = take_profit_pct s
  /\ max_hold_days s' = max_hold_days s
  /\ max_trades_per_week s' = max_trades_per_week s.
Proof.
  intro H. apply OnData_inv in H.
  destruct H as [(_ & -> & _) | (_ & s1 & out1 & Hl & H)]; [auto|].
  destruct (gate_state _ _ _ _ _ Hl) as ((_ & _ & P3 & P4 & P5 & P6) & _).
  cbv zeta in *.
  destruct H as [(_ & -> & _) | (_ & Hp & out2 & _ & H)]; [auto|].
  destruct (Invested e).
  - apply ManagePosition_shape in H.
    destruct H as [(-> & _) | (r & _ & _ & -> & _)]; cbn in *; auto.
  - apply (generate_entry_shape _ _ _ _ Hp) in H.
    destruct H as (_ & [(-> & _) | (n & _ & _ & -> & _)]); cbn in *; auto.
Qed.

Lemma reachable_default_config (s : State) :
  reachable int_of_str truediv s -> default_config s.
Proof.
  induction 1 as [|s e s' out _ IH H].
  - repeat split; reflexivity.
  - destruct IH as (I1 & I2 & I3 & I4).
    destruct (OnData_config _ _ _ _ H) as (C1 & C2 & C3 & C4).
    unfold default_config. rewrite C1, C2, C3, C4. auto.
Qed.

Lemma trace_reachable (s : State) (es : list Env) :
  reachable int_of_str truediv s ->
  Forall (fun so => reachable int_of_str truediv (fst so))
         (trace int_of_str truediv s es).
Proof.
  revert s. induction es as [|e es IH]; intros s Hs; cbn [trace]; [constructor|].
  destruct (OnData int_of_str truediv s e) as [[s' out]|] eqn:H; [|constructor].
  assert (Hs' : reachable int_of_str truediv s') by (eapply reach_step; eassumption).
  constructor; [exact Hs' | apply IH; exact Hs'].
Qed.

(** Within calls that all fall in ISO week [w], the entries are bounded by
    what the counter leaves below the cap. *)
Lemma week_entries_bound (es : list Env) (s : State) (w : Z) :
  (forall e, In e es -> isocalendar_week (Time e) = w) ->
  0 <= trades_this_week s <= max_trades_per_week s ->
  Z.of_nat (List.length (all_entries (trace int_of_str truediv s es)))
  <= if w =? last_week s
     then max_trades_per_week s - trades_this_week s
     else max_trades_per_week s.
Proof.
  revert s. induction es as [|e es IH]; intros s Hweek Hr; cbn [trace].
  - cbn. destruct (w =? last_week s); lia.
  - destruct (OnData int_of_str truediv s e) as [[s' out]|] eqn:H.
    2:{ cbn. destruct (w =? last_week s); lia. }
    unfold all_entries. cbn [flat_map snd]. fold (all_entries (trace int_of_str truediv s' es)).
    rewrite length_app, Nat2Z.inj_add.
    destruct (OnData_counter_range _ _ _ _ H Hr) as (Hr' & Hm').
    assert (Hweek' : forall x, In x es -> isocalendar_week (Time x) = w)
      by (intros x Hx; apply Hweek; right; exact Hx).
    specialize (IH s' Hweek' Hr').
    destruct (IsWarmingUp e) eqn:Hw.
    + destruct (OnData_warming_up _ _ _ _ H Hw) as (-> & ->). cbn. exact IH.
    + destruct (OnData_governor _ _ _ _ H Hw) as (Hlw & _ & Ht & _ & _).
      rewrite (Hweek e (or_introl eq_refl)) in Hlw.
      rewrite Hlw, Z.eqb_refl in IH.
      unfold trades_at_gate in Ht. rewrite (Hweek e (or_introl eq_refl)) in Ht.
      destruct (w =? last_week s); lia.
Qed.

(** C6.  From [Initialize], after every completed call the weekly counter
    lies between 0 and the cap of 5.  From any reachable state, calls that
    all fall in one ISO week buy at most 5 times.  For a completed call
    past the warm-up from a reachable state: if the ISO week of the call
    differs from [last_week], the week is stored and the counter is reset
    before the entry gate reads it (the call behaves as if the counter had
    been 0, and ends with the counter equal to its own number of entries);
    if the week is the stored one, the counter is not reset and never
    decreases, growing by at most 1; and with the counter at 5 in the stored
    week the call buys nothing. *)
Theorem weekly_trade_cap :
  (forall es,
      Forall (fun so => 0 <= trades_this_week (fst so) <= 5
                        /\ max_trades_per_week (fst so) = 5)
             (trace int_of_str truediv Initialize es))
  /\ (forall s es w,
         reachable int_of_str truediv s ->
         (forall e, In e es -> isocalendar_week (Time e) = w) ->
         (List.length (all_entries (trace int_of_str truediv s es)) <= 5)%nat)
  /\ (forall s e s' out,
         reachable int_of_str truediv s ->
         OnData int_of_str truediv s e = Ok (s', out) ->
         IsWarmingUp e = false ->
         (isocalendar_week (Time e) <> last_week s ->
          last_week s' = isocalendar_week (Time e)
          /\ trades_this_week s' = Z.of_nat (List.length (entries out))
          /\ OnData int_of_str truediv (set_trades_this_week 0 s) e
             = OnData int_of_str truediv s e)
         /\ (isocalendar_week (Time e) = last_week s ->
             last_week s' = last_week s
             /\ trades_this_week s <= trades_this_week s' <= trades_this_week s + 1
             /\ (trades_this_week s = 5 -> entries out = [] /\ trades_this_week s' = 5))).
Proof.
  split; [|split].
  - intro es.
    pose proof (trace_reachable Initialize es (reach_init _ _)) as H.
    eapply Forall_impl; [|exact H].
    intros so Hso. apply reachable_counter_range. exact Hso.
  - intros s es w Hs Hweek.
    destruct (reachable_counter_range s Hs) as (Hr & Hm).
    pose proof (week_entries_bound es s w Hweek) as Hb.
    rewrite Hm in Hb. specialize (Hb Hr).
    destruct (w =? last_week s); lia.
  - intros s e s' out Hs H Hw.
    destruct (reachable_counter_range s Hs) as (Hr & Hm).
    destruct (OnData_governor _ _ _ _ H Hw) as (Hlw & _ & Ht & Hn & Hc).
    unfold trades_at_gate in Ht, Hc.
    split.
    + intro Hne. apply Z.eqb_neq in Hne. rewrite Hne in Ht.
      split; [exact Hlw|]. split; [exact Ht|].
      unfold OnData, reset_weekly_counter.
      cbn [last_week set_trades_this_week]. rewrite Hw, Hne. reflexivity.
    + intro Heq. rewrite Hlw. split; [exact Heq|].
      apply Z.eqb_eq in Heq. rewrite Heq in Ht, Hc.
      split; [lia|].
      intro H5. destruct (entries out) as [|n l] eqn:He.
      * cbn in Ht. split; [reflexivity | lia].
      * exfalso. assert (trades_this_week s < max_trades_per_week s)
          by (apply Hc; discriminate). lia.
Qed.

End Governor.

(** Six opportunities in ISO week 1 of 2024: five entries of 9 shares, the
    sixth suppressed; the opportunity on the Monday after is taken. *)
Lemma weekly_trade_cap_witness :
  (List.length (all_entries (trace decimal_int truediv Initialize six_opportunities)) <= 5)%nat
  /\ all_entries (trace decimal_int truediv Initialize six_opportunities) = [9; 9; 9; 9; 9]
  /\ all_entries (trace decimal_int truediv Initialize (six_opportunities ++ [next_monday]))
     = [9; 9; 9; 9; 9; 9].
Proof.
  split; [|split; vm_compute; reflexivity].
  apply (proj1 (proj2 (weekly_trade_cap decimal_int)) Initialize six_opportunities 1).
  - apply reach_init.
  - intros e He. unfold six_opportunities in He. cbn [In] in He.
    repeat (destruct He as [<- | He]; [vm_compute; reflexivity|]).
    destruct He.
Defined.

(* ================================================================= *)
(** ** Launch records and the upcoming-launch rule *)

Section UpcomingLaunch.

Variable int_of_str : string -> option Z.
Variable strptime_ymd : string -> option datetime.

Lemma Reader_value (config_symbol line : string) (date : datetime) (isLive : bool)
      (r : RocketLabLaunch) :
  Reader strptime_ymd config_symbol line date isLive = Some r ->
  Value r = 2 /\ DaysToLaunch r = "0"%string.
Proof.
  unfold Reader. intro H.
  repeat break_match_in H; try discriminate. inv_ok H. cbn. auto.
Qed.

Lemma before_trading_upcoming (s s2 : State) (e : Env) (out1 : list Action) :
  upcoming_launch s = false ->
  (forall r, launch_data e = Some r -> Value r = 2) ->
  before_trading int_of_str s e = Ok (s2, out1) ->
  upcoming_launch s2 = false.
Proof.
  intros Hu Hv H. apply before_trading_inv in H. destruct H as (s1 & Hl & ->).
  cbn [upcoming_launch set_days_since_launch].
  apply process_launch_tracker in Hl.
  destruct (reset_weekly_counter_shape s (Time e)) as (_ & _ & _ & _ & _ & _ & _ & _ & Ht).
  apply tracker_of_inj in Ht. destruct Ht as (Hr & _).
  destruct (launch_data e) as [l|].
  - rewrite (Hv l eq_refl) in Hl. cbn in Hl. apply Hl.
  - rewrite Hl, Hr. exact Hu.
Qed.

Lemma OnData_upcoming (s s' : State) (e : Env) (out : list Action) :
  upcoming_launch s = false ->
  (forall r, launch_data e = Some r -> Value r = 2) ->
  OnData int_of_str truediv s e = Ok (s', out) ->
  upcoming_launch s' = false.
Proof.
  intros Hu Hv H.
  destruct (IsWarmingUp e) eqn:Hw.
  - destruct (OnData_warming_up _ _ _ _ _ H Hw) as (-> & _). exact Hu.
  - destruct (OnData_tracker _ _ _ _ _ H Hw) as (s1 & out1 & Hl & Ht).
    unfold tracker_of in Ht. injection Ht as -> _ _ _.
    apply (before_trading_upcoming s
             (set_days_since_launch (days_since_launch s1 + 1) s1) e out1 Hu Hv).
    unfold before_trading. rewrite Hl. reflexivity.
Qed.

(** With the flag down, rule 6 adds neither a point nor a reason. *)
Lemma rule_six_silent (s : State) (price : Q) (i : Indicators) :
  upcoming_launch s = false ->
  nth 5 (predicates s price i) true = false
  /\ (forall n, ~ In (LaunchIn n) (snd (score_and_reasons s price i)))
  /\ fst (score_and_reasons s price i)
     = count_true (firstn 5 (predicates s price i) ++ skipn 6 (predicates s price i)).
Proof.
  intro Hu.
  unfold score_and_reasons, predicates, count_true, rule. rewrite Hu. cbn [andb nth].
  split; [reflexivity|].
  destruct (ltb 30 (rsi_val i) && ltb (rsi_val i) 45);
  destruct (ltb (macd_signal i) (macd_val i) && ltb 0 (macd_hist i));
  destruct (ltb (sma_slow_val i) (sma_fast_val i));
  destruct (ltb (sma_fast_val i) price);
  destruct (ltb price (bb_lower i * (102 # 100)));
  destruct ((days_since_launch s <=? 3)
            && match last_launch_outcome s with
               | Some o => (o =? "Success")%string
               | None => false
               end);
  cbn; (split; [|reflexivity]); intros n Hn;
  repeat (destruct Hn as [Hn | Hn]; [discriminate Hn|]); exact Hn.
Qed.

(** C4.  Every record [Reader] returns has [Value = 2].  In a run from
    [Initialize] whose launch records all come from [Reader], no call
    raises, [upcoming_launch] is false after every call and also when a
    call reaches its trading part, and in any state with the flag down the
    sixth scoring condition is false: the score is the count of the other
    six and no "Launch in" reason is recorded. *)
Theorem reader_never_announces_upcoming :
  (forall config_symbol line date isLive r,
      Reader strptime_ymd config_symbol line date isLive = Some r -> Value r = 2)
  /\ (forall es,
         fed_by_reader strptime_ymd es ->
         List.length (trace int_of_str truediv Initialize es) = List.length es
         /\ Forall (fun so => upcoming_launch (fst so) = false)
                   (trace int_of_str truediv Initialize es))
  /\ (forall s e s2 out1,
         upcoming_launch s = false ->
         fed_by_reader strptime_ymd [e] ->
         before_trading int_of_str s e = Ok (s2, out1) ->
         upcoming_launch s2 = false)
  /\ (forall s price i,
         upcoming_launch s = false ->
         nth 5 (predicates s price i) true = false
         /\ (forall n, ~ In (LaunchIn n) (snd (score_and_reasons s price i)))
         /\ fst (score_and_reasons s price i)
            = count_true (firstn 5 (predicates s price i)
                          ++ skipn 6 (predicates s price i))).
Proof.
  assert (Hval : forall es e r, fed_by_reader strptime_ymd es -> In e es ->
                                launch_data e = Some r -> Value r = 2).
  { intros es e r Hfed He Hr.
    destruct (Hfed e r He Hr) as (c & l & d & b & H).
    apply (Reader_value _ _ _ _ _ H). }
  split; [|split; [|split]].
  - intros c l d b r H. apply (Reader_value _ _ _ _ _ H).
  - intros es Hfed.
    assert (Hgen : forall s, upcoming_launch s = false ->
              List.length (trace int_of_str truediv s es) = List.length es
              /\ Forall (fun so => upcoming_launch (fst so) = false)
                        (trace int_of_str truediv s es)).
    { induction es as [|e es IH]; intros s Hu; cbn [trace].
      - split; [reflexivity | constructor].
      - assert (Hv : forall r, launch_data e = Some r -> Value r = 2)
          by (intros r Hr; apply (Hval (e :: es) e r Hfed (or_introl eq_refl) Hr)).
        destruct (OnData_total int_of_str s e) as (s' & out & H).
        { unfold launch_ok. destruct (launch_data e) as [l|]; [|exact I].
          intro H1. rewrite (Hv l eq_refl) in H1. discriminate. }
        rewrite H.
        pose proof (OnData_upcoming _ _ _ _ Hu Hv H) as Hu'.
        destruct (IH (fun x r Hx => Hfed x r (or_intror Hx)) s' Hu') as (Hlen & Hall).
        split; [cbn; rewrite Hlen; reflexivity|].
        constructor; [exact Hu' | exact Hall]. }
    apply Hgen. reflexivity.
  - intros s e s2 out1 Hu Hfed H.
    apply (before_trading_upcoming s s2 e out1 Hu); [|exact H].
    intros r Hr. apply (Hval [e] e r Hfed (or_introl eq_refl) Hr).
  - intros s price i Hu. apply rule_six_silent. exact Hu.
Qed.

End UpcomingLaunch.

(** A run whose launch record is the one [Reader] builds from
    [electron_line], followed by a buying opportunity. *)
Lemma reader_never_announces_upcoming_witness :
  Reader padded_ymd "RKLBLAUNCHES" electron_line 0 false = Some electron_launch
  /\ Value electron_launch = 2
  /\ Forall (fun so => upcoming_launch (fst so) = false)
            (trace decimal_int truediv Initialize
                   [launch_day 2 electron_launch; bar 3 100 false 1000]).
Proof.
  assert (HR : Reader padded_ymd "RKLBLAUNCHES" electron_line 0 false
               = Some electron_launch) by (vm_compute; reflexivity).
  split; [exact HR|].
  destruct (reader_never_announces_upcoming decimal_int padded_ymd) as (H1 & H2 & _).
  split; [exact (H1 _ _ _ _ _ HR)|].
  apply H2.
  intros e r He Hr. cbn [In] in He.
  destruct He as [<- | [<- | []]]; cbn in Hr; [|discriminate].
  inversion Hr; subst r. exists "RKLBLAUNCHES"%string, electron_line, 0, false. exact HR.
Defined.

(* ================================================================= *)
(** ** Further properties of one call *)

Section CallFacts.

Variable int_of_str : string -> option Z.

(** X1.  [OnData] raises exactly when it is past the warm-up and the
    slice carries a launch record with [Value = 1] whose ["DaysToLaunch"]
    is rejected by [int]; the exception is then [ValueError].  No other
    input makes it raise, and no input makes it divide by zero. *)
Theorem OnData_raises_iff (s : State) (e : Env) (x : exn) :
  OnData int_of_str truediv s e = Raise x
  <-> x = ValueError /\ bad_upcoming_record int_of_str e.
Proof.
  split.
  - intro H.
    destruct (IsWarmingUp e) eqn:Hw.
    { unfold OnData in H. rewrite Hw in H. discriminate. }
    destruct (launch_data e) as [l|] eqn:Hl.
    2:{ destruct (OnData_total int_of_str s e) as (s' & out & H').
        - unfold launch_ok. rewrite Hl. exact I.
        - congruence. }
    destruct (Value l =? 1) eqn:Hv.
    2:{ destruct (OnData_total int_of_str s e) as (s' & out & H').
        - unfold launch_ok. rewrite Hl. intro Hv1. rewrite Hv1 in Hv. discriminate.
        - congruence. }
    destruct (int_of_str (DaysToLaunch l)) as [n|] eqn:Hi.
    { destruct (OnData_total int_of_str s e) as (s' & out & H').
      - unfold launch_ok. rewrite Hl, Hi. discriminate.
      - congruence. }
    apply Z.eqb_eq in Hv.
    assert (Hr : OnData int_of_str truediv s e = Raise ValueError).
    { unfold OnData, process_launch. rewrite Hw, Hl.
      apply Z.eqb_eq in Hv. rewrite Hv, Hi. reflexivity. }
    split; [congruence|].
    split; [exact Hw|]. exists l. auto.
  - intros (-> & Hw & l & Hl & Hv & Hi).
    unfold OnData, process_launch. rewrite Hw, Hl.
    apply Z.eqb_eq in Hv. rewrite Hv, Hi. reflexivity.
Qed.

(** X2.  A completed call emits at most one order: a [MarketOrder] for a
    positive quantity, only when no position is held, or one [Liquidate],
    only when a position is held; never both. *)
Theorem one_order_per_call (s s' : State) (e : Env) (out : list Action) :
  OnData int_of_str truediv s e = Ok (s', out) ->
  orders out = []
  \/ (Invested e = false /\ exists n, 0 < n /\ orders out = [MarketOrder n])
  \/ (Invested e = true /\ orders out = [Liquidate]).
Proof.
  intro H. apply OnData_inv in H.
  destruct H as [(_ & _ & ->) | (_ & s1 & out1 & Hl & H)]; [left; reflexivity|].
  destruct (gate_state _ _ _ _ _ Hl) as (_ & _ & _ & Ho & _ & _). cbv zeta in H.
  destruct H as [(_ & _ & ->) | (_ & Hp & out2 & -> & H)]; [left; exact Ho|].
  rewrite orders_app, Ho. cbn [app].
  destruct (Invested e).
  - apply ManagePosition_shape in H.
    destruct H as [(_ & ->) | (r & _ & _ & _ & ->)]; [left; reflexivity|].
    right; right. split; reflexivity.
  - apply (generate_entry_shape _ _ _ _ Hp) in H.
    destruct H as (_ & [(_ & -> & _) | (n & Hn & _ & _ & -> & _)]); [left; reflexivity|].
    right; left. split; [reflexivity|]. exists n. auto.
Qed.

(** Everything that is known when a call buys. *)
Lemma OnData_buy_inv (s s' : State) (e : Env) (out : list Action) (n : Z) :
  OnData int_of_str truediv s e = Ok (s', out) ->
  In (MarketOrder n) out ->
  IsWarmingUp e = false /\ rklb_in_data e = true /\ (0 < Price e)%Q
  /\ Invested e = false /\ indicators_ready (ind e) = true
  /\ trades_at_gate s (Time e) < max_trades_per_week s
  /\ n = Qfloor (Cash e * (95 # 100) / Price e) /\ 0 < n
  /\ entry_price s' = Price e /\ entry_date s' = Some (Time e)
  /\ exists s2 out1,
       before_trading int_of_str s e = Ok (s2, out1)
       /\ 3 <= fst (CalculateSignalScore s2 (Price e) (ind e)).
Proof.
  intros H Hin.
  assert (Hin' : In (MarketOrder n) (orders out)).
  { unfold orders. apply filter_In. split; [exact Hin | reflexivity]. }
  apply OnData_inv in H.
  destruct H as [(_ & _ & ->) | (Hw & s1 & out1 & Hl & H)]; [destruct Hin|].
  destruct (gate_state _ _ _ _ _ Hl) as ((_ & _ & _ & _ & _ & Pm) & Hg & _ & Ho & _ & _).
  cbv zeta in *.
  destruct H as [(_ & _ & ->) | (Hd & Hp & out2 & -> & H)].
  { rewrite Ho in Hin'. destruct Hin'. }
  rewrite orders_app, Ho in Hin'. cbn [app] in Hin'.
  destruct (Invested e).
  { apply ManagePosition_shape in H.
    destruct H as [(_ & ->) | (r & _ & _ & _ & ->)]; cbn in Hin'.
    - destruct Hin'.
    - destruct Hin' as [Hx | []]. discriminate. }
  set (s2 := set_days_since_launch (days_since_launch s1 + 1) s1) in *.
  rewrite (generate_entry_spec s2 e Hp) in H.
  destruct (CalculateSignalScore_out s2 (Price e) (ind e)) as (Hlo & _ & _).
  cbv zeta in *.
  destruct (max_trades_per_week s2 <=? trades_this_week s2) eqn:Ecap; cbn [orb] in H.
  { inv_ok H. destruct Hin'. }
  destruct (indicators_ready (ind e)) eqn:Hready; cbn [negb] in H.
  2:{ inv_ok H. destruct Hin'. }
  destruct (3 <=? fst (CalculateSignalScore s2 (Price e) (ind e))) eqn:Esc;
    cbn [andb] in H.
  2:{ inv_ok H. rewrite Hlo in Hin'. destruct Hin'. }
  destruct (0 <? Qfloor (Cash e * (95 # 100) / Price e)) eqn:Esh.
  2:{ inv_ok H. rewrite Hlo in Hin'. destruct Hin'. }
  inv_ok H. rewrite orders_app, Hlo in Hin'. cbn in Hin'.
  destruct Hin' as [Hx | []]. inv_ok Hx.
  apply Z.leb_gt in Ecap. apply Z.leb_le in Esc. apply Z.ltb_lt in Esh.
  rewrite Hg, Pm in Ecap.
  repeat split; try assumption; try reflexivity.
  exists s2, out1. split; [|exact Esc].
  unfold before_trading. rewrite Hl. reflexivity.
Qed.

(** X3.  A call buys only when it is past the warm-up, has an RKLB bar
    at a positive price, holds no position, has the four indicators ready,
    finds the weekly counter below the cap and scores at least 3; it then
    records the price and time of the call as the entry. *)
Theorem buys_only_when_qualified (s s' : State) (e : Env) (out : list Action) (n : Z) :
  OnData int_of_str truediv s e = Ok (s', out) ->
  In (MarketOrder n) out ->
  IsWarmingUp e = false /\ rklb_in_data e = true /\ (0 < Price e)%Q
  /\ Invested e = false /\ indicators_ready (ind e) = true
  /\ trades_at_gate s (Time e) < max_trades_per_week s
  /\ (exists s2 out1,
         before_trading int_of_str s e = Ok (s2, out1)
         /\ 3 <= fst (CalculateSignalScore s2 (Price e) (ind e)))
  /\ entry_price s' = Price e /\ entry_date s' = Some (Time e).
Proof.
  intros H Hin.
  destruct (OnData_buy_inv _ _ _ _ _ H Hin)
    as (H1 & H2 & H3 & H4 & H5 & H6 & _ & _ & H9 & H10 & H11).
  repeat split; assumption.
Qed.

End CallFacts.

Lemma one_order_per_call_witness :
  exists s' out,
    OnData decimal_int truediv Initialize (bar 0 100 false 1000) = Ok (s', out)
    /\ (orders out = []
        \/ (Invested (bar 0 100 false 1000) = false
            /\ exists n, 0 < n /\ orders out = [MarketOrder n])
        \/ (Invested (bar 0 100 false 1000) = true /\ orders out = [Liquidate])).
Proof.
  destruct (OnData decimal_int truediv Initialize (bar 0 100 false 1000))
    as [[s' out]|x] eqn:H.
  - exists s', out. split; [reflexivity|].
    apply (one_order_per_call decimal_int _ _ _ _ H).
  - exfalso. vm_compute in H. discriminate H.
Defined.

Lemma buys_only_when_qualified_witness :
  indicators_ready (ind (bar 0 100 false 1000)) = true
  /\ trades_at_gate Initialize (Time (bar 0 100 false 1000))
     < max_trades_per_week Initialize.
Proof.
  destruct (OnData decimal_int truediv Initialize (bar 0 100 false 1000))
    as [[s' out]|x] eqn:H.
  - assert (Hin : In (MarketOrder 9) out).
    { vm_compute in H. injection H as <- <-. cbn. tauto. }
    destruct (buys_only_when_qualified decimal_int _ _ _ _ 9 H Hin)
      as (_ & _ & _ & _ & Hr & Hc & _).
    split; [exact Hr | exact Hc].
  - exfalso. vm_compute in H. discriminate H.
Defined.

(* ================================================================= *)
(** ** Further properties of exits *)

(** An exit of [ManagePosition]: which test produced it. *)
Lemma ManagePosition_exit_inv
      (s s' : State) (price : Q) (now : datetime) (out : list Action) (r : ExitReason) :
  ManagePosition truediv s price now = Ok (s', out) ->
  In r (exit_reasons out) ->
  (0 < entry_price s)%Q /\ s' = ResetPosition s
  /\ out = [Liquidate; Log (LogExit r price (pnl_pct s price) (days_held s now))]
  /\ exit_condition s price now r.
Proof.
  intros H Hin.
  destruct (Qlt_le_dec 0 (entry_price s)) as [Hpos | Hle].
  2:{ rewrite (ManagePosition_invalid truediv s price now Hle) in H. inv_ok H.
      destruct Hin. }
  rewrite (ManagePosition_open truediv s price now Hpos (truediv_pos _ _ Hpos)) in H.
  cbv zeta in H. unfold exit_with in H.
  destruct (leb (pnl_pct s price) (- stop_loss_pct s)) eqn:C1.
  { inv_ok H. destruct Hin as [<- | []]. apply leb_iff in C1. cbn. repeat split; auto. }
  destruct (leb (take_profit_pct s) (pnl_pct s price)) eqn:C2.
  { inv_ok H. destruct Hin as [<- | []].
    apply leb_false_iff in C1. apply leb_iff in C2. cbn. repeat split; auto. }
  destruct (max_hold_days s <=? days_held s now) eqn:C3.
  { inv_ok H. destruct Hin as [<- | []].
    apply leb_false_iff in C1. apply leb_false_iff in C2. apply Z.leb_le in C3.
    cbn. repeat split; auto. }
  inv_ok H. destruct Hin.
Qed.

(** No exit of [ManagePosition] on a valid position: all tests failed. *)
Lemma ManagePosition_hold_inv
      (s s' : State) (price : Q) (now : datetime) (out : list Action) :
  ManagePosition truediv s price now = Ok (s', out) ->
  (0 < entry_price s)%Q ->
  exit_reasons out = [] ->
  s' = s /\ out = []
  /\ (- stop_loss_pct s < pnl_pct s price)%Q
  /\ (pnl_pct s price < take_profit_pct s)%Q
  /\ days_held s now < max_hold_days s.
Proof.
  intros H Hpos Hno.
  rewrite (ManagePosition_open truediv s price now Hpos (truediv_pos _ _ Hpos)) in H.
  cbv zeta in H. unfold exit_with in H.
  destruct (leb (pnl_pct s price) (- stop_loss_pct s)) eqn:C1.
  { inv_ok H. discriminate Hno. }
  destruct (leb (take_profit_pct s) (pnl_pct s price)) eqn:C2.
  { inv_ok H. discriminate Hno. }
  destruct (max_hold_days s <=? days_held s now) eqn:C3.
  { inv_ok H. discriminate Hno. }
  inv_ok H. apply leb_false_iff in C1. apply leb_false_iff in C2. apply Z.leb_gt in C3.
  auto.
Qed.

Lemma exit_condition_ext (s s2 : State) (price : Q) (now : datetime) (r : ExitReason) :
  entry_price s2 = entry_price s -> entry_date s2 = entry_date s ->
  stop_loss_pct s2 = stop_loss_pct s -> take_profit_pct s2 = take_profit_pct s ->
  max_hold_days s2 = max_hold_days s ->
  exit_condition s2 price now r -> exit_condition s price now r.
Proof.
  intros P1 P2 P3 P4 P5. unfold exit_condition.
  rewrite (pnl_pct_ext s s2 price P1), (days_held_ext s s2 now P2), P3, P4, P5.
  exact (fun H => H).
Qed.

Section ExitFacts.

Variable int_of_str : string -> option Z.

(** X5.  A call that logs an exit was managing a held position with a
    positive [entry_price]; it emits the single order [Liquidate], clears
    [entry_price] and [entry_date], and the logged reason is the first of
    the tests stop-loss, take-profit, time-stop that held on the values at
    the start of the call, for whatever thresholds the state carries. *)
Theorem exit_reason_is_sound
  (s s' : State) (e : Env) (out : list Action) (r : ExitReason) :
  OnData int_of_str truediv s e = Ok (s', out) ->
  In r (exit_reasons out) ->
  Invested e = true /\ (0 < entry_price s)%Q
  /\ orders out = [Liquidate] /\ exit_reasons out = [r]
  /\ entry_price s' = 0%Q /\ entry_date s' = None
  /\ exit_condition s (Price e) (Time e) r.
Proof.
  intros H Hin. apply OnData_inv in H.
  destruct H as [(_ & _ & ->) | (_ & s1 & out1 & Hl & H)]; [destruct Hin|].
  destruct (gate_state _ _ _ _ _ Hl)
    as ((P1 & P2 & P3 & P4 & P5 & _) & _ & _ & Ho & _ & Hx).
  cbv zeta in *.
  destruct H as [(_ & _ & ->) | (_ & Hp & out2 & -> & H)].
  { rewrite Hx in Hin. destruct Hin. }
  rewrite exit_reasons_app, Hx in Hin. cbn [app] in Hin.
  rewrite exit_reasons_app, orders_app, Hx, Ho. cbn [app].
  destruct (Invested e).
  - destruct (ManagePosition_exit_inv _ _ _ _ _ _ H Hin) as (Hpos & -> & -> & Hc).
    rewrite P1 in Hpos.
    repeat split; try assumption; try reflexivity.
    apply (exit_condition_ext s _ _ _ _ P1 P2 P3 P4 P5 Hc).
  - apply (generate_entry_shape _ _ _ _ Hp) in H. destruct H as (H & _).
    rewrite H in Hin. destruct Hin.
Qed.

(** X6.  A held position with a positive [entry_price] that a call of
    [OnData] manages (RKLB bar at a positive price, past the warm-up)
    without exiting is within all limits: its gain lies strictly between
    [-stop_loss_pct] and [take_profit_pct], it has been held for fewer than
    [max_hold_days], and its entry record is untouched. *)
Theorem surviving_position_is_within_limits
  (s s' : State) (e : Env) (out : list Action) :
  OnData int_of_str truediv s e = Ok (s', out) ->
  IsWarmingUp e = false -> rklb_in_data e = true -> (0 < Price e)%Q ->
  Invested e = true -> (0 < entry_price s)%Q ->
  exit_reasons out = [] ->
  (- stop_loss_pct s < pnl_pct s (Price e))%Q
  /\ (pnl_pct s (Price e) < take_profit_pct s)%Q
  /\ days_held s (Time e) < max_hold_days s
  /\ entry_price s' = entry_price s /\ entry_date s' = entry_date s
  /\ orders out = [].
Proof.
  intros H Hw Hd Hp Hinv Hpos Hno. apply OnData_inv in H.
  destruct H as [(Hw' & _) | (_ & s1 & out1 & Hl & H)]; [congruence|].
  destruct (gate_state _ _ _ _ _ Hl)
    as ((P1 & P2 & P3 & P4 & P5 & _) & _ & _ & Ho & _ & Hx).
  cbv zeta in *.
  destruct H as [([Hn | Hle] & _) | (_ & _ & out2 & -> & H)];
    [congruence | exfalso; exact (Qlt_not_le _ _ Hp Hle) |].
  rewrite Hinv in H.
  rewrite exit_reasons_app, Hx in Hno. cbn [app] in Hno.
  rewrite <- P1 in Hpos.
  destruct (ManagePosition_hold_inv _ _ _ _ _ H Hpos Hno) as (-> & -> & C1 & C2 & C3).
  rewrite (pnl_pct_ext s _ _ P1), P3 in C1.
  rewrite (pnl_pct_ext s _ _ P1), P4 in C2.
  rewrite (days_held_ext s _ _ P2), P5 in C3.
  rewrite app_nil_r. repeat split; assumption.
Qed.

End ExitFacts.

Lemma exit_reason_is_sound_witness :
  exit_condition (set_days_since_launch 1000
                    (set_last_week 1 (set_trades_this_week 0 open_at_100)))
                 112 (jan2024 1) TAKE_PROFIT.
Proof.
  destruct (OnData decimal_int truediv
              (set_days_since_launch 1000
                 (set_last_week 1 (set_trades_this_week 0 open_at_100)))
              (bar 1 112 true 100)) as [[s' out]|x] eqn:H.
  - assert (Hin : In TAKE_PROFIT (exit_reasons out)).
    { vm_compute in H. injection H as <- <-. cbn. tauto. }
    apply (exit_reason_is_sound decimal_int _ _ _ _ _ H Hin).
  - exfalso. vm_compute in H. discriminate H.
Defined.

Lemma surviving_position_is_within_limits_witness :
  (- stop_loss_pct open_at_100 < pnl_pct open_at_100 104)%Q
  /\ (pnl_pct open_at_100 104 < take_profit_pct open_at_100)%Q
  /\ days_held open_at_100 (jan2024 3) < max_hold_days open_at_100.
Proof.
  destruct (OnData decimal_int truediv open_at_100 (bar 3 104 true 100))
    as [[s' out]|x] eqn:H.
  - assert (Hno : exit_reasons out = []).
    { vm_compute in H. injection H as <- <-. reflexivity. }
    destruct (surviving_position_is_within_limits decimal_int _ _ _ _ H
                eq_refl eq_refl eq_refl eq_refl eq_refl Hno)
      as (H1 & H2 & H3 & _).
    repeat split; assumption.
  - exfalso. vm_compute in H. discriminate H.
Defined.

(* ================================================================= *)
(** ** Further properties of runs *)

Lemma final_state_cons (s s' : State) (out : list Action) (tr : list (State * list Action)) :
  final_state s ((s', out) :: tr) = final_state s' tr.
Proof.
  unfold final_state. cbn [map fst].
  assert (Hlast : forall (l : list State) (a d : State), last (a :: l) d = last l a).
  { induction l as [|b l IH]; intros a d; [reflexivity|].
    change (last (a :: b :: l) d) with (last (b :: l) d).
    rewrite (IH b d), (IH b a). reflexivity. }
  apply Hlast.
Qed.

Section RunFacts.

Variable int_of_str : string -> option Z.

Lemma trace_invariant (P : State -> Prop) :
  (forall s e s' out, P s -> OnData int_of_str truediv s e = Ok (s', out) -> P s') ->
  forall es s, P s -> Forall (fun so => P (fst so)) (trace int_of_str truediv s es).
Proof.
  intros Hstep es. induction es as [|e es IH]; intros s Hs; cbn [trace]; [constructor|].
  destruct (OnData int_of_str truediv s e) as [[s' out]|] eqn:H; [|constructor].
  pose proof (Hstep _ _ _ _ Hs H) as Hs'.
  constructor; [exact Hs' | apply IH; exact Hs'].
Qed.

Lemma OnData_position_consistent (s s' : State) (e : Env) (out : list Action) :
  position_consistent s ->
  OnData int_of_str truediv s e = Ok (s', out) ->
  position_consistent s'.
Proof.
  intros Hs H. apply OnData_inv in H.
  destruct H as [(_ & -> & _) | (_ & s1 & out1 & Hl & H)]; [exact Hs|].
  destruct (gate_state _ _ _ _ _ Hl) as ((P1 & P2 & _) & _). cbv zeta in *.
  set (s2 := set_days_since_launch (days_since_launch s1 + 1) s1) in *.
  assert (Hs2 : position_consistent s2).
  { unfold position_consistent. rewrite P1, P2. exact Hs. }
  destruct H as [(_ & -> & _) | (_ & Hp & out2 & _ & H)]; [exact Hs2|].
  destruct (Invested e).
  - apply ManagePosition_shape in H.
    destruct H as [(-> & _) | (r & _ & _ & -> & _)]; [exact Hs2|].
    left. split; reflexivity.
  - apply (generate_entry_shape _ _ _ _ Hp) in H.
    destruct H as (_ & [(-> & _) | (n & _ & _ & -> & _)]); [exact Hs2|].
    right. cbn. split; [exact Hp | discriminate].
Qed.

(** X8.  In every run from [Initialize], after every completed call the
    entry record is either clear ([entry_price = 0] and no [entry_date]) or
    complete (a positive [entry_price] and an [entry_date]); [entry_price]
    is never negative, so the guard of [ManagePosition] only ever meets
    the clear record. *)
Theorem entry_record_clear_or_complete (es : list Env) :
  Forall (fun so => position_consistent (fst so))
         (trace int_of_str truediv Initialize es).
Proof.
  apply (trace_invariant position_consistent).
  - intros s e s' out Hs H. exact (OnData_position_consistent _ _ _ _ Hs H).
  - left. split; reflexivity.
Qed.

(** The tracker after a quiet call. *)
Lemma OnData_quiet (s : State) (e : Env) :
  quiet e ->
  exists s' out,
    OnData int_of_str truediv s e = Ok (s', out) /\ tracker_of s' = aged s 1.
Proof.
  intros (Hw & Hl).
  destruct (OnData_total int_of_str s e) as (s' & out & H).
  { unfold launch_ok. rewrite Hl. exact I. }
  exists s', out. split; [exact H|].
  destruct (OnData_tracker _ _ _ _ _ H Hw) as (s1 & out1 & Hp & Ht).
  rewrite Hl in Hp. cbn in Hp. inv_ok Hp. rewrite Ht.
  destruct (reset_weekly_counter_shape s (Time e)) as (_ & _ & _ & _ & _ & _ & _ & _ & Hr).
  apply tracker_of_inj in Hr. destruct Hr as (R1 & R2 & R3 & R4).
  unfold aged. rewrite R1, R2, R3, R4. reflexivity.
Qed.

Lemma quiet_trace_tracker (es : list Env) (s : State) :
  Forall quiet es ->
  List.length (trace int_of_str truediv s es) = List.length es
  /\ map (fun so => tracker_of (fst so)) (trace int_of_str truediv s es)
     = map (aged s) (seq 1 (List.length es)).
Proof.
  revert s. induction es as [|e es IH]; intros s Hq; cbn [trace].
  - split; reflexivity.
  - inversion Hq as [|? ? He Hes]; subst.
    destruct (OnData_quiet s e He) as (s' & out & H & Ht).
    rewrite H. destruct (IH s' Hes) as (Hlen & Hmap).
    split; [cbn; rewrite Hlen; reflexivity|].
    cbn [map fst List.length seq]. rewrite Ht, Hmap. f_equal.
    rewrite <- (seq_shift (List.length es) 1), map_map. apply map_ext. intro k.
    unfold aged in *. unfold tracker_of in Ht. injection Ht as -> -> -> ->.
    f_equal. f_equal. lia.
Qed.

(** X9.  Calls past the warm-up that carry no launch record never raise
    and do nothing to the launch tracker but age it: after the k-th of
    them [days_since_launch] has grown by exactly k, while
    [upcoming_launch], [days_to_launch] and [last_launch_outcome] are as
    they were.  In particular [days_to_launch] does not count down. *)
Theorem quiet_calls_only_age_the_tracker (es : list Env) (s : State) :
  Forall quiet es ->
  List.length (trace int_of_str truediv s es) = List.length es
  /\ map (fun so => tracker_of (fst so)) (trace int_of_str truediv s es)
     = map (aged s) (seq 1 (List.length es)).
Proof. exact (quiet_trace_tracker es s). Qed.

(** X10.  After a launch record with [Value = 2], and as long as no
    further record arrives, the seventh scoring condition holds on the
    launch call and the two calls after it and on no later call, and only
    if the outcome is exactly "Success": the call numbered k (from 0)
    leaves [days_since_launch = k + 1]. *)
Theorem post_launch_momentum_lasts_three_calls
  (s : State) (e : Env) (l : RocketLabLaunch) (es : list Env)
  (price : Q) (i : Indicators) :
  IsWarmingUp e = false -> launch_data e = Some l -> Value l = 2 ->
  Forall quiet es ->
  map (fun so => nth 6 (predicates (fst so) price i) false)
      (trace int_of_str truediv s (e :: es))
  = map (fun k => (Nat.ltb k 3) && String.eqb (Outcome l) "Success")
        (seq 0 (S (List.length es))).
Proof.
  intros Hw Hl Hv Hq.
  destruct (OnData_total int_of_str s e) as (s0 & out0 & H0).
  { unfold launch_ok. rewrite Hl. intro H1. rewrite Hv in H1. discriminate. }
  destruct (OnData_tracker _ _ _ _ _ H0 Hw) as (s1 & out1 & Hp & Ht).
  apply process_launch_tracker in Hp. rewrite Hl, Hv in Hp. cbn in Hp.
  destruct Hp as (_ & Hd & Ho). rewrite Hd, Ho in Ht.
  unfold tracker_of in Ht. injection Ht as _ _ Hds Hlo.
  destruct (quiet_trace_tracker es s0 Hq) as (_ & Hmap).
  set (g := fun t : bool * Z * Z * option string =>
              (snd (fst t) <=? 3)
              && match snd t with
                 | Some o => String.eqb o "Success"
                 | None => false
                 end).
  assert (Hg : forall x, nth 6 (predicates x price i) false = g (tracker_of x))
    by (intro x; reflexivity).
  cbn [trace]. rewrite H0. cbn [map fst seq].
  f_equal.
  - rewrite Hg. unfold g, tracker_of. cbn [fst snd]. rewrite Hds, Hlo. reflexivity.
  - rewrite (map_ext _ (fun so => g (tracker_of (fst so)))) by (intro; apply Hg).
    rewrite <- (map_map (fun so => tracker_of (fst so)) g), Hmap, map_map.
    apply map_ext_in. intros k _.
    unfold g, aged. cbn [fst snd]. rewrite Hds, Hlo. f_equal.
    destruct (Nat.ltb_spec k 3); [apply Z.leb_le | apply Z.leb_gt]; lia.
Qed.

(** X11.  The trading part of a call never touches the launch tracker:
    the tracker attributes that [CalculateSignalScore] reads during a call
    are those the call leaves behind. *)
Theorem trading_leaves_tracker_alone
  (s s2 s' : State) (e : Env) (out1 out : list Action) :
  IsWarmingUp e = false ->
  before_trading int_of_str s e = Ok (s2, out1) ->
  OnData int_of_str truediv s e = Ok (s', out) ->
  tracker_of s' = tracker_of s2.
Proof.
  intros Hw Hb H.
  apply before_trading_inv in Hb. destruct Hb as (s1 & Hl & ->).
  destruct (OnData_tracker _ _ _ _ _ H Hw) as (s1' & out1' & Hl' & Ht).
  rewrite Hl in Hl'. inv_ok Hl'. exact Ht.
Qed.

(** X12.  While the calls stay in the stored ISO week, the weekly counter
    counts the entries exactly: after any such run it has grown by the
    number of [MarketOrder]s the run emitted, exits and skipped
    opportunities leaving it alone. *)
Theorem counter_counts_entries (es : list Env) (s : State) :
  (forall e, In e es -> isocalendar_week (Time e) = last_week s) ->
  trades_this_week (final_state s (trace int_of_str truediv s es))
  = trades_this_week s
    + Z.of_nat (List.length (all_entries (trace int_of_str truediv s es))).
Proof.
  revert s. induction es as [|e es IH]; intros s Hweek; cbn [trace].
  - cbn. lia.
  - destruct (OnData int_of_str truediv s e) as [[s' out]|] eqn:H; [|cbn; lia].
    rewrite final_state_cons.
    unfold all_entries. cbn [flat_map snd].
    fold (all_entries (trace int_of_str truediv s' es)).
    rewrite length_app, Nat2Z.inj_add.
    destruct (IsWarmingUp e) eqn:Hw.
    + destruct (OnData_warming_up _ _ _ _ _ H Hw) as (-> & ->).
      rewrite IH; [cbn; lia|]. intros x Hx. apply Hweek. right; exact Hx.
    + destruct (OnData_governor _ _ _ _ _ H Hw) as (Hlw & _ & Ht & _ & _).
      unfold trades_at_gate in Ht.
      rewrite (Hweek e (or_introl eq_refl)), Z.eqb_refl in Ht.
      rewrite IH; [lia|].
      intros x Hx. rewrite Hlw, (Hweek e (or_introl eq_refl)).
      apply Hweek. right; exact Hx.
Qed.

(** X13.  Calls made during the warm-up are invisible: a run ends in the
    same state and emits the same actions as the run without them, so a
    launch record delivered during the warm-up is lost. *)
Theorem warm_up_calls_are_invisible (es : list Env) (s : State) :
  final_state s (trace int_of_str truediv s es)
  = final_state s (trace int_of_str truediv s (filter live es))
  /\ all_actions (trace int_of_str truediv s es)
     = all_actions (trace int_of_str truediv s (filter live es)).
Proof.
  revert s. induction es as [|e es IH]; intro s; [split; reflexivity|].
  cbn [filter].
  destruct (IsWarmingUp e) eqn:Hw.
  - assert (Hl : live e = false) by (unfold live; rewrite Hw; reflexivity).
    rewrite Hl. cbn [trace].
    assert (Hskip : OnData int_of_str truediv s e = Ok (s, []))
      by (unfold OnData; rewrite Hw; reflexivity).
    rewrite Hskip.
    rewrite final_state_cons. unfold all_actions. cbn [flat_map snd app].
    apply IH.
  - assert (Hl : live e = true) by (unfold live; rewrite Hw; reflexivity).
    rewrite Hl. cbn [trace].
    destruct (OnData int_of_str truediv s e) as [[s' out]|]; [|split; reflexivity].
    rewrite !final_state_cons. unfold all_actions. cbn [flat_map snd].
    destruct (IH s') as (IH1 & IH2). unfold all_actions in IH2.
    rewrite IH1, IH2. split; reflexivity.
Qed.

End RunFacts.

Lemma quiet_calls_only_age_the_tracker_witness :
  List.length (trace decimal_int truediv Initialize [quiet_day 3; quiet_day 4]) = 2%nat
  /\ map (fun so => tracker_of (fst so))
         (trace decimal_int truediv Initialize [quiet_day 3; quiet_day 4])
     = [(false, 999, 1000, None); (false, 999, 1001, None)].
Proof.
  apply (quiet_calls_only_age_the_tracker decimal_int [quiet_day 3; quiet_day 4] Initialize).
  repeat constructor.
Defined.

(** The record of [electron_line], then four calls without a record: the
    seventh condition holds on the first three calls only. *)
Lemma post_launch_momentum_lasts_three_calls_witness :
  map (fun so => nth 6 (predicates (fst so) 100 (bullish 100)) false)
      (trace decimal_int truediv Initialize
             (launch_then_three_days ++ [quiet_day 6]))
  = [true; true; true; false; false].
Proof.
  apply (post_launch_momentum_lasts_three_calls decimal_int Initialize
           (launch_day 2 electron_launch) electron_launch
           [quiet_day 3; quiet_day 4; quiet_day 5; quiet_day 6] 100 (bullish 100)).
  - reflexivity.
  - reflexivity.
  - reflexivity.
  - repeat constructor.
Defined.

Lemma trading_leaves_tracker_alone_witness :
  exists s2 out1 s' out,
    before_trading decimal_int Initialize (bar 0 100 false 1000) = Ok (s2, out1)
    /\ OnData decimal_int truediv Initialize (bar 0 100 false 1000) = Ok (s', out)
    /\ entries out = [9]
    /\ tracker_of s' = tracker_of s2.
Proof.
  destruct (before_trading decimal_int Initialize (bar 0 100 false 1000))
    as [[s2 out1]|x] eqn:Hb; [|exfalso; vm_compute in Hb; discriminate Hb].
  destruct (OnData decimal_int truediv Initialize (bar 0 100 false 1000))
    as [[s' out]|x] eqn:H; [|exfalso; vm_compute in H; discriminate H].
  exists s2, out1, s', out. split; [reflexivity|]. split; [reflexivity|].
  split.
  - vm_compute in H. injection H as <- <-. reflexivity.
  - apply (trading_leaves_tracker_alone decimal_int Initialize s2 s'
             (bar 0 100 false 1000) out1 out eq_refl Hb H).
Defined.

(** The six opportunities of week 1, from a state that already stores
    week 1: the counter ends at 5, the number of entries. *)
Lemma counter_counts_entries_witness :
  trades_this_week
    (final_state (set_last_week 1 Initialize)
       (trace decimal_int truediv (set_last_week 1 Initialize) six_opportunities))
  = 0 + 5.
Proof.
  apply (counter_counts_entries decimal_int six_opportunities (set_last_week 1 Initialize)).
  intros e He. unfold six_opportunities in He. cbn [In] in He.
  repeat (destruct He as [<- | He]; [vm_compute; reflexivity|]).
  destruct He.
Defined.

(* ================================================================= *)
(** ** The ISO week number and the stored week *)

Lemma days_before_year_decomp (a b c d : Z) :
  0 <= b <= 3 -> 0 <= c <= 24 -> 0 <= d <= 3 ->
  days_before_year (400 * a + 100 * b + 4 * c + d + 1)
  = 146097 * a + 36524 * b + 1461 * c + 365 * d.
Proof.
  intros Hb Hc Hd. unfold days_before_year. cbv zeta.
  replace (400 * a + 100 * b + 4 * c + d + 1 - 1)
    with (400 * a + 100 * b + 4 * c + d) by lia.
  assert (H4 : (400 * a + 100 * b + 4 * c + d) / 4 = 100 * a + 25 * b + c)
    by (symmetry; apply (Z.div_unique _ 4 _ d); lia).
  assert (H100 : (400 * a + 100 * b + 4 * c + d) / 100 = 4 * a + b)
    by (symmetry; apply (Z.div_unique _ 100 _ (4 * c + d)); lia).
  assert (H400 : (400 * a + 100 * b + 4 * c + d) / 400 = a)
    by (symmetry; apply (Z.div_unique _ 400 _ (100 * b + 4 * c + d)); lia).
  rewrite H4, H100, H400. lia.
Qed.

(** [year_of_ordinal] finds the year an ordinal day lies in; [r] is the
    day's offset in that year. *)
Lemma year_decomp (n : Z) :
  exists a b c d r,
    0 <= b <= 3 /\ 0 <= c <= 24 /\ 0 <= d <= 3
    /\ year_of_ordinal n = 400 * a + 100 * b + 4 * c + d + 1
    /\ n = 146097 * a + 36524 * b + 1461 * c + 365 * d + r + 1
    /\ 0 <= r /\ r <= 365
    /\ (r = 365 -> d = 3 /\ (c = 24 -> b = 3)).
Proof.
  unfold year_of_ordinal. cbv zeta.
  set (a := (n - 1) / 146097).
  set (r1 := (n - 1) mod 146097).
  set (b := r1 / 36524). set (r2 := r1 mod 36524).
  set (c := r2 / 1461). set (r3 := r2 mod 1461).
  set (d := r3 / 365).
  assert (E0 : n - 1 = 146097 * a + r1 /\ 0 <= r1 < 146097)
    by (unfold a, r1; Z.div_mod_to_equations; lia).
  assert (E1 : r1 = 36524 * b + r2 /\ 0 <= r2 < 36524)
    by (unfold b, r2; Z.div_mod_to_equations; lia).
  assert (E2 : r2 = 1461 * c + r3 /\ 0 <= r3 < 1461)
    by (unfold c, r3; Z.div_mod_to_equations; lia).
  assert (E3 : r3 = 365 * d + r3 mod 365 /\ 0 <= r3 mod 365 < 365)
    by (unfold d; Z.div_mod_to_equations; lia).
  set (r4 := r3 mod 365) in *.
  clearbody a r1 b r2 c r3 d r4.
  destruct E0 as (E0 & B0), E1 as (E1 & B1), E2 as (E2 & B2), E3 as (E3 & B3).
  destruct (Z.eqb_spec d 4) as [Ed | Ed]; destruct (Z.eqb_spec b 4) as [Eb | Eb];
    cbn [orb].
  - exfalso. lia.
  - exists a, b, c, 3, 365. repeat split; try lia.
  - exists a, 3, 24, 3, 365. repeat split; try lia.
  - exists a, b, c, d, r4. repeat split; try lia.
Qed.

Lemma leap_year_length (a b c : Z) :
  0 <= b <= 3 -> 0 <= c <= 24 -> (c = 24 -> b = 3) ->
  days_before_year (400 * a + 100 * b + 4 * c + 3 + 1 + 1)
  = days_before_year (400 * a + 100 * b + 4 * c + 3 + 1) + 366.
Proof.
  intros Hb Hc Hcb.
  rewrite (days_before_year_decomp a b c 3) by lia.
  destruct (Z.eq_dec c 24) as [-> | Hne].
  - rewrite (Hcb eq_refl).
    replace (400 * a + 100 * 3 + 4 * 24 + 3 + 1 + 1)
      with (400 * (a + 1) + 100 * 0 + 4 * 0 + 0 + 1) by lia.
    rewrite (days_before_year_decomp (a + 1) 0 0 0) by lia. lia.
  - replace (400 * a + 100 * b + 4 * c + 3 + 1 + 1)
      with (400 * a + 100 * b + 4 * (c + 1) + 0 + 1) by lia.
    rewrite (days_before_year_decomp a b (c + 1) 0) by lia. lia.
Qed.

Lemma isoweek1monday_near (y : Z) :
  days_before_year y - 2 <= isoweek1monday y <= days_before_year y + 4
  /\ (isoweek1monday y + 6) mod 7 = 0.
Proof.
  unfold isoweek1monday. cbv zeta.
  generalize (days_before_year y). intro dy.
  destruct (Z.ltb_spec 3 ((dy + 1 + 6) mod 7)); Z.div_mod_to_equations; lia.
Qed.

Lemma days_before_year_succ (y : Z) :
  365 <= days_before_year (y + 1) - days_before_year y <= 366.
Proof.
  unfold days_before_year. cbv zeta.
  replace (y + 1 - 1) with (y - 1 + 1) by lia.
  Z.div_mod_to_equations. lia.
Qed.

Lemma week_arith (n r dy0 dy1 dy2 m0 m1 m2 : Z) :
  dy1 = n - r - 1 -> 0 <= r <= 365 ->
  365 <= dy1 - dy0 <= 366 -> 365 <= dy2 - dy1 <= 366 ->
  (r = 365 -> dy2 = dy1 + 366) ->
  dy0 - 2 <= m0 <= dy0 + 4 -> (m0 + 6) mod 7 = 0 ->
  dy1 - 2 <= m1 <= dy1 + 4 -> (m1 + 6) mod 7 = 0 ->
  dy2 - 2 <= m2 <= dy2 + 4 -> (m2 + 6) mod 7 = 0 ->
  1 <= (if (n - m1) / 7 <? 0 then (n - m0) / 7 + 1
        else if 52 <=? (n - m1) / 7 then if m2 <=? n then 1 else (n - m1) / 7 + 1
        else (n - m1) / 7 + 1) <= 53.
Proof.
  intros Hdy Hr S0 S1 Hleap M0 M0' M1 M1' M2 M2'.
  destruct (Z.ltb_spec ((n - m1) / 7) 0) as [Hneg | Hpos].
  - Z.div_mod_to_equations. lia.
  - destruct (Z.leb_spec 52 ((n - m1) / 7)) as [H52 | H52].
    + destruct (Z.leb_spec m2 n); [lia|].
      Z.div_mod_to_equations. lia.
    + lia.
Qed.

(** A week number is between 1 and 53, for every instant. *)
Lemma isocalendar_week_range (t : datetime) : 1 <= isocalendar_week t <= 53.
Proof.
  unfold isocalendar_week. cbv zeta.
  generalize (toordinal t). intro n.
  destruct (year_decomp n)
    as (a & b & c & d & r & Hb & Hc & Hd & Hy & Hn & Hr0 & Hr1 & Hleap).
  assert (Hdy : days_before_year (year_of_ordinal n) = n - r - 1).
  { rewrite Hy, days_before_year_decomp by assumption. lia. }
  assert (Hl : r = 365 -> days_before_year (year_of_ordinal n + 1)
                          = days_before_year (year_of_ordinal n) + 366).
  { intro E. destruct (Hleap E) as (-> & Hcb). rewrite Hy.
    apply leap_year_length; assumption. }
  destruct (isoweek1monday_near (year_of_ordinal n)) as (M1 & M1').
  destruct (isoweek1monday_near (year_of_ordinal n - 1)) as (M0 & M0').
  destruct (isoweek1monday_near (year_of_ordinal n + 1)) as (M2 & M2').
  pose proof (days_before_year_succ (year_of_ordinal n)) as S1.
  pose proof (days_before_year_succ (year_of_ordinal n - 1)) as S0.
  replace (year_of_ordinal n - 1 + 1) with (year_of_ordinal n) in S0 by lia.
  apply (week_arith n r (days_before_year (year_of_ordinal n - 1))
                    (days_before_year (year_of_ordinal n))
                    (days_before_year (year_of_ordinal n + 1))); try assumption.
  lia.
Qed.

Section StoredWeek.

Variable int_of_str : string -> option Z.

(** X14.  [last_week] is the sentinel -1 of [Initialize] or a week number
    between 1 and 53, in every run; the sentinel is no week number, so a
    call past the warm-up that finds it always takes the reset branch: it
    stores the ISO week of the call and restarts the counter, which ends
    the call equal to the number of entries of that call. *)
Theorem sentinel_week_always_resets :
  (forall es,
      Forall (fun so => last_week (fst so) = -1 \/ 1 <= last_week (fst so) <= 53)
             (trace int_of_str truediv Initialize es))
  /\ (forall s e s' out,
         last_week s = -1 -> IsWarmingUp e = false ->
         OnData int_of_str truediv s e = Ok (s', out) ->
         last_week s' = isocalendar_week (Time e)
         /\ 1 <= last_week s' <= 53
         /\ trades_this_week s' = Z.of_nat (List.length (entries out))).
Proof.
  split.
  - intro es.
    apply (trace_invariant int_of_str
             (fun s => last_week s = -1 \/ 1 <= last_week s <= 53)).
    + intros s e s' out Hs H.
      destruct (IsWarmingUp e) eqn:Hw.
      * destruct (OnData_warming_up _ _ _ _ _ H Hw) as (-> & _). exact Hs.
      * destruct (OnData_governor _ _ _ _ _ H Hw) as (Hlw & _).
        right. rewrite Hlw. apply isocalendar_week_range.
    + left. reflexivity.
  - intros s e s' out Hs Hw H.
    destruct (OnData_governor _ _ _ _ _ H Hw) as (Hlw & _ & Ht & _).
    pose proof (isocalendar_week_range (Time e)) as Hrange.
    split; [exact Hlw|]. split; [rewrite Hlw; exact Hrange|].
    unfold trades_at_gate in Ht.
    destruct (Z.eqb_spec (isocalendar_week (Time e)) (last_week s)) as [E | E]; [lia|].
    exact Ht.
Qed.

End StoredWeek.

Lemma sentinel_week_always_resets_witness :
  exists s' out,
    OnData decimal_int truediv Initialize (bar 0 100 false 1000) = Ok (s', out)
    /\ last_week s' = isocalendar_week (Time (bar 0 100 false 1000))
    /\ 1 <= last_week s' <= 53
    /\ trades_this_week s' = Z.of_nat (List.length (entries out)).
Proof.
  destruct (OnData decimal_int truediv Initialize (bar 0 100 false 1000))
    as [[s' out]|x] eqn:H; [|exfalso; vm_compute in H; discriminate H].
  exists s', out. split; [reflexivity|].
  apply (proj2 (sentinel_week_always_resets decimal_int) Initialize
               (bar 0 100 false 1000) s' out eq_refl eq_refl H).
Defined.

(* ================================================================= *)
(** ** Strings: splitting and stripping *)

Lemma split_length (sep : ascii) (s : string) :
  List.length (split sep s) = S (count_char sep s).
Proof.
  induction s as [|x r IH]; [reflexivity|].
  cbn [split count_char]. destruct (Ascii.eqb x sep).
  - cbn. rewrite IH. reflexivity.
  - destruct (split sep r) as [|h t]; [discriminate IH|]. exact IH.
Qed.

Lemma split_first (sep : ascii) (a b : string) :
  count_char sep a = 0%nat ->
  split sep (a ++ String sep b)%string = a :: split sep b.
Proof.
  induction a as [|x a IH]; intro Hc.
  - cbn. rewrite Ascii.eqb_refl. reflexivity.
  - cbn [count_char] in Hc. cbn [append split].
    destruct (Ascii.eqb x sep); [discriminate Hc|].
    rewrite (IH Hc). reflexivity.
Qed.

Lemma split_pieces (sep : ascii) (s : string) :
  Forall (fun x => count_char sep x = 0%nat) (split sep s).
Proof.
  induction s as [|x r IH]; [repeat constructor|].
  cbn [split]. destruct (Ascii.eqb x sep) eqn:E.
  - constructor; [reflexivity | exact IH].
  - destruct (split sep r) as [|h t].
    + repeat constructor. cbn. rewrite E. reflexivity.
    + inversion IH; subst. constructor; [|assumption].
      cbn. rewrite E. assumption.
Qed.

Lemma not_space_neq (x c : ascii) :
  isspace x = true -> isspace c = false -> Ascii.eqb x c = false.
Proof.
  intros Hx Hc. destruct (Ascii.eqb_spec x c) as [-> |]; [congruence | reflexivity].
Qed.

(** Stripping removes white space only. *)
Lemma lstrip_count (c : ascii) (s : string) :
  isspace c = false -> count_char c (lstrip s) = count_char c s.
Proof.
  intro Hc. induction s as [|x r IH]; [reflexivity|].
  cbn [lstrip]. destruct (isspace x) eqn:Hx; [|reflexivity].
  cbn [count_char]. rewrite (not_space_neq x c Hx Hc). exact IH.
Qed.

Lemma rstrip_count (c : ascii) (s : string) :
  isspace c = false -> count_char c (rstrip s) = count_char c s.
Proof.
  intro Hc. induction s as [|x r IH]; [reflexivity|].
  cbn [rstrip]. destruct (rstrip r) as [|y r'] eqn:E.
  - destruct (isspace x) eqn:Hx.
    + cbn [count_char] in *. rewrite (not_space_neq x c Hx Hc), <- IH. reflexivity.
    + cbn [count_char] in *. rewrite <- IH. reflexivity.
  - cbn [count_char] in *. rewrite IH. reflexivity.
Qed.

Lemma strip_count (c : ascii) (s : string) :
  isspace c = false -> count_char c (strip s) = count_char c s.
Proof.
  intro Hc. unfold strip. rewrite (rstrip_count c _ Hc). apply (lstrip_count c s Hc).
Qed.

Lemma lstrip_head_ok (s : string) : head_ok (lstrip s).
Proof.
  induction s as [|x r IH]; [exact I|].
  cbn [lstrip]. destruct (isspace x) eqn:Hx; [exact IH | exact Hx].
Qed.

Lemma lstrip_fix (s : string) : head_ok s -> lstrip s = s.
Proof. destruct s as [|x r]; [reflexivity|]. cbn. intros ->. reflexivity. Qed.

Lemma rstrip_last_ok (s : string) : last_ok (rstrip s).
Proof.
  induction s as [|x r IH]; [exact I|].
  cbn [rstrip]. destruct (rstrip r) as [|y r'] eqn:E.
  - destruct (isspace x) eqn:Hx; [exact I | exact Hx].
  - exact IH.
Qed.

Lemma rstrip_fix (s : string) : last_ok s -> rstrip s = s.
Proof.
  induction s as [|x r IH]; [reflexivity|].
  intro H. cbn [rstrip]. destruct r as [|y r'].
  - cbn in *. rewrite H. reflexivity.
  - rewrite (IH H). reflexivity.
Qed.

Lemma rstrip_head_ok (s : string) : head_ok s -> head_ok (rstrip s).
Proof.
  destruct s as [|x r]; [exact (fun H => H)|].
  cbn [head_ok rstrip]. intro Hx. destruct (rstrip r); [rewrite Hx|]; exact Hx.
Qed.

(** A stripped string is left alone by [strip]. *)
Lemma strip_idempotent (s : string) : strip (strip s) = strip s.
Proof.
  unfold strip.
  rewrite (lstrip_fix (rstrip (lstrip s))) by (apply rstrip_head_ok, lstrip_head_ok).
  apply rstrip_fix, rstrip_last_ok.
Qed.

Lemma comma_not_space : isspace "," = false.
Proof. reflexivity. Qed.

Lemma strip_nonempty (c : ascii) (s : string) :
  isspace c = false -> count_char c s <> 0%nat -> is_empty (strip s) = false.
Proof.
  intros Hc Hn. rewrite <- (strip_count c s Hc) in Hn.
  destruct (strip s); [exfalso; apply Hn; reflexivity | reflexivity].
Qed.

Lemma count_char_app (c : ascii) (a b : string) :
  count_char c (a ++ b)%string = (count_char c a + count_char c b)%nat.
Proof.
  induction a as [|x a IH]; [reflexivity|].
  cbn [append count_char]. rewrite IH. lia.
Qed.

(* ================================================================= *)
(** ** Further properties of [Reader] *)

Section ReaderFacts.

Variable strptime_ymd : string -> option datetime.

(** X15.  [Reader] drops a line exactly when the line is blank, or starts
    with "Date", or has fewer than three commas, or the text before its
    first comma, stripped, is not a date for [strptime]. *)
Theorem Reader_rejects_iff
  (config_symbol line : string) (date : datetime) (isLive : bool) :
  Reader strptime_ymd config_symbol line date isLive = None
  <-> is_empty (strip line) = true
      \/ startswith line "Date" = true
      \/ (count_char "," line < 3)%nat
      \/ strptime_ymd (strip (hd EmptyString (split "," line))) = None.
Proof.
  unfold Reader. pose proof (split_length "," line) as Hlen.
  destruct (is_empty (strip line)); [cbn [orb]; tauto|].
  destruct (startswith line "Date"); cbn [orb]; [tauto|].
  destruct (split "," line) as [|d0 [|d1 [|d2 [|d3 rest]]]]; cbn [List.length hd] in *.
  - discriminate Hlen.
  - split; [intros _; right; right; left; lia | reflexivity].
  - split; [intros _; right; right; left; lia | reflexivity].
  - split; [intros _; right; right; left; lia | reflexivity].
  - destruct (strptime_ymd (strip d0)).
    + split; [discriminate|].
      intros [H | [H | [H | H]]]; try discriminate. exfalso. lia.
    + split; [auto | reflexivity].
Qed.

(** X16.  A line made of a date, a mission, a flight number and an
    outcome joined by commas, the first three free of commas, comes back
    as those four fields stripped of surrounding white space, with
    [Value = 2], ["DaysToLaunch" = "0"] and the time at noon of the date;
    what follows a further comma is ignored. *)
Theorem Reader_parses_csv_line
  (config_symbol d m f o : string) (date : datetime) (isLive : bool) (t : datetime) :
  count_char "," d = 0%nat -> count_char "," m = 0%nat -> count_char "," f = 0%nat ->
  startswith (csv_line d m f o) "Date" = false ->
  strptime_ymd (strip d) = Some t ->
  Reader strptime_ymd config_symbol (csv_line d m f o) date isLive
  = Some {| l_Symbol := config_symbol;
            l_Time := add_hours t 12;
            Value := 2;
            Mission := strip m;
            FlightNo := strip f;
            Outcome := strip (hd EmptyString (split "," o));
            DaysToLaunch := "0" |}.
Proof.
  intros Hd Hm Hf Hh Ht. unfold Reader. rewrite Hh.
  assert (Hne : is_empty (strip (csv_line d m f o)) = false).
  { apply (strip_nonempty "," _ comma_not_space).
    unfold csv_line. rewrite count_char_app. cbn. lia. }
  rewrite Hne. cbn [orb]. unfold csv_line.
  rewrite (split_first "," d _ Hd), (split_first "," m _ Hm), (split_first "," f _ Hf).
  pose proof (split_length "," o) as Hlen.
  destruct (split "," o) as [|o1 rest]; [discriminate Hlen|].
  rewrite Ht. reflexivity.
Qed.

(** X17.  The text fields of a record that [Reader] returns are clean:
    stripping them again changes nothing and none contains a comma; the
    symbol is the one of the subscription. *)
Theorem Reader_fields_are_clean
  (config_symbol line : string) (date : datetime) (isLive : bool) (r : RocketLabLaunch) :
  Reader strptime_ymd config_symbol line date isLive = Some r ->
  l_Symbol r = config_symbol
  /\ strip (Mission r) = Mission r /\ count_char "," (Mission r) = 0%nat
  /\ strip (FlightNo r) = FlightNo r /\ count_char "," (FlightNo r) = 0%nat
  /\ strip (Outcome r) = Outcome r /\ count_char "," (Outcome r) = 0%nat.
Proof.
  unfold Reader. intro H. pose proof (split_pieces "," line) as Hp.
  destruct (is_empty (strip line) || startswith line "Date"); [discriminate|].
  destruct (split "," line) as [|d0 [|d1 [|d2 [|d3 rest]]]]; try discriminate.
  destruct (strptime_ymd (strip d0)); [|discriminate].
  inv_ok H. cbn [l_Symbol Mission FlightNo Outcome].
  inversion Hp as [|? ? _ Hp1]; subst.
  inversion Hp1 as [|? ? H1 Hp2]; subst.
  inversion Hp2 as [|? ? H2 Hp3]; subst.
  inversion Hp3 as [|? ? H3 _]; subst.
  rewrite !strip_idempotent, !(strip_count "," _ comma_not_space).
  repeat split; assumption.
Qed.

End ReaderFacts.

Lemma Reader_parses_csv_line_witness :
  Reader padded_ymd "RKLBLAUNCHES"
         (csv_line "2024-01-03" " Four Of A Kind" " 43" " Success, on time") 0 false
  = Some electron_launch.
Proof.
  apply (Reader_parses_csv_line padded_ymd "RKLBLAUNCHES"
           "2024-01-03" " Four Of A Kind" " 43" " Success, on time" 0 false (jan2024 2));
    reflexivity.
Defined.

Lemma Reader_fields_are_clean_witness :
  strip (Outcome electron_launch) = Outcome electron_launch
  /\ count_char "," (Mission electron_launch) = 0%nat.
Proof.
  destruct (Reader_fields_are_clean padded_ymd "RKLBLAUNCHES" electron_line 0 false
              electron_launch) as (_ & _ & Hm & _ & _ & Ho & _).
  - vm_compute. reflexivity.
  - split; [exact Ho | exact Hm].
Defined.

(* ================================================================= *)
(** ** From a line of the launch file to the tracker *)

Section LineToTracker.

Variable int_of_str : string -> option Z.
Variable strptime_ymd : string -> option datetime.

(** X18.  A call past the warm-up whose launch record was built by
    [Reader] never raises; it logs the launch first, with the mission and
    outcome of the line, sets [last_launch_outcome] to that outcome,
    clears [upcoming_launch], leaves [days_to_launch] alone and ends with
    [days_since_launch = 1]. *)
Theorem launch_line_reaches_tracker
  (config_symbol line : string) (date : datetime) (isLive : bool)
  (r : RocketLabLaunch) (s : State) (e : Env) :
  Reader strptime_ymd config_symbol line date isLive = Some r ->
  launch_data e = Some r -> IsWarmingUp e = false ->
  exists s' rest,
    OnData int_of_str truediv s e
    = Ok (s', Log (LogLaunchEvent (Mission r) (Outcome r)) :: rest)
    /\ tracker_of s' = (false, days_to_launch s, 1, Some (Outcome r)).
Proof.
  intros HR Hl Hw.
  assert (Hv : Value r = 2).
  { unfold Reader in HR. repeat break_match_in HR; try discriminate. inv_ok HR. reflexivity. }
  destruct (OnData_total int_of_str s e) as (s' & out & H).
  { unfold launch_ok. rewrite Hl. intro H1. rewrite Hv in H1. discriminate. }
  pose proof H as H0. apply OnData_inv in H0.
  destruct H0 as [(Hw' & _) | (_ & s1 & out1 & Hp & H0)]; [congruence|].
  destruct (OnData_tracker _ _ _ _ _ H Hw) as (s1' & out1' & Hp' & Ht).
  rewrite Hp in Hp'. inv_ok Hp'.
  assert (Hout1 : out1' = [Log (LogLaunchEvent (Mission r) (Outcome r))]
                  /\ upcoming_launch s1' = false
                  /\ days_to_launch s1' = days_to_launch s
                  /\ days_since_launch s1' = 0
                  /\ last_launch_outcome s1' = Some (Outcome r)).
  { unfold process_launch in Hp. rewrite Hl, Hv in Hp. cbn in Hp. inv_ok Hp.
    cbn. unfold reset_weekly_counter.
    destruct (negb (isocalendar_week (Time e) =? last_week s)); cbn; auto. }
  destruct Hout1 as (-> & U & D & S0 & L).
  rewrite U, D, S0, L in Ht.
  cbv zeta in H0.
  destruct H0 as [(_ & _ & ->) | (_ & _ & out2 & -> & _)].
  - exists s', []. split; [exact H | exact Ht].
  - exists s', out2. split; [exact H | exact Ht].
Qed.

End LineToTracker.

Lemma launch_line_reaches_tracker_witness :
  exists s' rest,
    OnData decimal_int truediv Initialize (launch_day 2 electron_launch)
    = Ok (s', Log (LogLaunchEvent "Four Of A Kind" "Success") :: rest)
    /\ tracker_of s' = (false, 999, 1, Some "Success"%string).
Proof.
  apply (launch_line_reaches_tracker decimal_int padded_ymd "RKLBLAUNCHES"
           electron_line 0 false electron_launch Initialize
           (launch_day 2 electron_launch)).
  - vm_compute. reflexivity.
  - reflexivity.
  - reflexivity.
Defined.

(* ================================================================= *)
(** ** Further properties of the score *)

Lemma CalculateSignalScore_fst (s : State) (price : Q) (i : Indicators) :
  fst (CalculateSignalScore s price i) = fst (score_and_reasons s price i).
Proof.
  unfold CalculateSignalScore. destruct (score_and_reasons s price i). reflexivity.
Qed.

Lemma score_and_reasons_selected (s : State) (price : Q) (i : Indicators) :
  fst (score_and_reasons s price i) = count_true (predicates s price i)
  /\ snd (score_and_reasons s price i)
     = selected (predicates s price i) (reason_texts s i).
Proof.
  unfold score_and_reasons, predicates, reason_texts, selected, count_true, rule.
  destruct (ltb 30 (rsi_val i) && ltb (rsi_val i) 45);
  destruct (ltb (macd_signal i) (macd_val i) && ltb 0 (macd_hist i));
  destruct (ltb (sma_slow_val i) (sma_fast_val i));
  destruct (ltb (sma_fast_val i) price);
  destruct (ltb price (bb_lower i * (102 # 100)));
  destruct (upcoming_launch s && ((1 <=? days_to_launch s) && (days_to_launch s <=? 5)));
  destruct ((days_since_launch s <=? 3)
            && match last_launch_outcome s with
               | Some o => (o =? "Success")%string
               | None => false
               end);
  split; reflexivity.
Qed.

Lemma selected_In {A : Type} (cs : list bool) (xs : list A) (x : A) :
  In x (selected cs xs) -> In (true, x) (combine cs xs).
Proof.
  unfold selected. intro H. apply in_map_iff in H.
  destruct H as ([c y] & Hy & Hin). cbn in Hy. subst y.
  apply filter_In in Hin. destruct Hin as (Hin & Hc). cbn in Hc. subst c. exact Hin.
Qed.

(** X19.  Every reason that [CalculateSignalScore] collects certifies its
    condition on the values of the call: the value it quotes is the one
    read, and the test behind it held. *)
Theorem reasons_are_sound (s : State) (price : Q) (i : Indicators) (r : Reason) :
  In r (snd (score_and_reasons s price i)) ->
  match r with
  | RsiOversoldRecovery x =>
      x = rsi_val i /\ (30 < x)%Q /\ (x < 45)%Q
  | MacdBullish h =>
      h = macd_hist i /\ (macd_signal i < macd_val i)%Q /\ (0 < h)%Q
  | SmaUptrend f sl =>
      f = sma_fast_val i /\ sl = sma_slow_val i /\ (sl < f)%Q
  | PriceAboveSma20 => (sma_fast_val i < price)%Q
  | NearBollingerLower => (price < bb_lower i * (102 # 100))%Q
  | LaunchIn n =>
      n = days_to_launch s /\ upcoming_launch s = true /\ 1 <= n <= 5
  | PostLaunchMomentum d =>
      d = days_since_launch s /\ d <= 3
      /\ last_launch_outcome s = Some "Success"%string
  end.
Proof.
  intro H. rewrite (proj2 (score_and_reasons_selected s price i)) in H.
  apply selected_In in H. unfold predicates, reason_texts in H. cbn [combine In] in H.
  destruct H as [H | [H | [H | [H | [H | [H | [H | []]]]]]]];
    injection H as Hc <-.
  - apply andb_true_iff in Hc. destruct Hc as (H1 & H2).
    apply ltb_iff in H1. apply ltb_iff in H2. auto.
  - apply andb_true_iff in Hc. destruct Hc as (H1 & H2).
    apply ltb_iff in H1. apply ltb_iff in H2. auto.
  - apply ltb_iff in Hc. auto.
  - apply ltb_iff in Hc. exact Hc.
  - apply ltb_iff in Hc. exact Hc.
  - apply andb_true_iff in Hc. destruct Hc as (H1 & H2).
    apply andb_true_iff in H2. destruct H2 as (H2 & H3).
    apply Z.leb_le in H2. apply Z.leb_le in H3. auto.
  - apply andb_true_iff in Hc. destruct Hc as (H1 & H2).
    apply Z.leb_le in H1.
    destruct (last_launch_outcome s) as [o|]; [|discriminate].
    apply String.eqb_eq in H2. subst o. auto.
Qed.

Lemma reasons_are_sound_witness :
  (30 < rsi_val (bullish 100))%Q /\ (rsi_val (bullish 100) < 45)%Q.
Proof.
  apply (reasons_are_sound Initialize 100 (bullish 100)
           (RsiOversoldRecovery (rsi_val (bullish 100)))).
  cbn. tauto.
Defined.

Section TechnicalSignal.

Variable int_of_str : string -> option Z.

(** X20.  The two launch rules can add at most 2 to the score, and at
    most 1 while [upcoming_launch] is false, so they never reach the entry
    threshold of 3 alone: a call that buys had at least one of the five
    technical conditions true, and at least two when the flag was down. *)
Theorem entry_needs_technical_signal :
  (forall s price i,
      fst (score_and_reasons s price i)
      <= count_true (firstn 5 (predicates s price i)) + 2
      /\ (upcoming_launch s = false ->
          fst (score_and_reasons s price i)
          <= count_true (firstn 5 (predicates s price i)) + 1))
  /\ (forall s e s' out n,
         OnData int_of_str truediv s e = Ok (s', out) ->
         In (MarketOrder n) out ->
         exists s2 out1,
           before_trading int_of_str s e = Ok (s2, out1)
           /\ 1 <= count_true (firstn 5 (predicates s2 (Price e) (ind e)))
           /\ (upcoming_launch s2 = false ->
               2 <= count_true (firstn 5 (predicates s2 (Price e) (ind e))))).
Proof.
  assert (Hbound : forall s price i,
      fst (score_and_reasons s price i)
      <= count_true (firstn 5 (predicates s price i)) + 2
      /\ (upcoming_launch s = false ->
          fst (score_and_reasons s price i)
          <= count_true (firstn 5 (predicates s price i)) + 1)).
  { intros s price i.
    rewrite (proj1 (score_and_reasons_selected s price i)).
    unfold predicates, count_true.
    destruct (upcoming_launch s);
    destruct (ltb 30 (rsi_val i) && ltb (rsi_val i) 45);
    destruct (ltb (macd_signal i) (macd_val i) && ltb 0 (macd_hist i));
    destruct (ltb (sma_slow_val i) (sma_fast_val i));
    destruct (ltb (sma_fast_val i) price);
    destruct (ltb price (bb_lower i * (102 # 100)));
    destruct ((1 <=? days_to_launch s) && (days_to_launch s <=? 5));
    destruct ((days_since_launch s <=? 3)
              && match last_launch_outcome s with
                 | Some o => (o =? "Success")%string
                 | None => false
                 end);
    cbn; split; try lia; intro; try discriminate; lia. }
  split; [exact Hbound|].
  intros s e s' out n H Hin.
  destruct (OnData_buy_inv int_of_str _ _ _ _ _ H Hin)
    as (_ & _ & _ & _ & _ & _ & _ & _ & _ & _ & s2 & out1 & Hb & Hsc).
  exists s2, out1. split; [exact Hb|].
  rewrite CalculateSignalScore_fst in Hsc.
  destruct (Hbound s2 (Price e) (ind e)) as (B1 & B2).
  split; [lia|]. intro Hu. specialize (B2 Hu). lia.
Qed.

End TechnicalSignal.

Lemma entry_needs_technical_signal_witness :
  exists s2 out1,
    before_trading decimal_int Initialize (bar 0 100 false 1000) = Ok (s2, out1)
    /\ 1 <= count_true (firstn 5 (predicates s2 100 (bullish 100))).
Proof.
  destruct (OnData decimal_int truediv Initialize (bar 0 100 false 1000))
    as [[s' out]|x] eqn:H; [|exfalso; vm_compute in H; discriminate H].
  assert (Hin : In (MarketOrder 9) out).
  { vm_compute in H. injection H as <- <-. cbn. tauto. }
  destruct (proj2 (entry_needs_technical_signal decimal_int) _ _ _ _ 9 H Hin)
    as (s2 & out1 & Hb & H1 & _).
  exists s2, out1. split; [exact Hb | exact H1].
Defined.

(* ================================================================= *)
(** ** The time stop in instants *)

Lemma sub_days_ge (now t0 k : Z) :
  k <= sub_days now t0 <-> t0 + k * us_per_day <= now.
Proof.
  unfold sub_days, us_per_day. split; intro H.
  - Z.div_mod_to_equations. lia.
  - apply Z.div_le_lower_bound; lia.
Qed.

(** X21.  For a position with a recorded entry whose gain is strictly
    inside the stop-loss and take-profit limits, [ManagePosition] exits,
    as a time stop, exactly when at least [max_hold_days] whole periods of
    24 hours separate the call from the entry: a call 9 days and 23 hours
    after the entry does not exit, whatever the calendar dates are. *)
Theorem time_stop_counts_whole_days
  (s s' : State) (price : Q) (now t0 : datetime) (out : list Action) :
  (0 < entry_price s)%Q -> entry_date s = Some t0 ->
  (- stop_loss_pct s < pnl_pct s price)%Q ->
  (pnl_pct s price < take_profit_pct s)%Q ->
  ManagePosition truediv s price now = Ok (s', out) ->
  (exit_reasons out = [TIME_STOP] <-> t0 + max_hold_days s * us_per_day <= now)
  /\ (exit_reasons out = [] <-> now < t0 + max_hold_days s * us_per_day).
Proof.
  intros Hpos Hd Hlo Hhi H.
  rewrite (ManagePosition_open truediv s price now Hpos (truediv_pos _ _ Hpos)) in H.
  cbv zeta in H. unfold exit_with in H.
  apply leb_false_iff in Hlo. apply leb_false_iff in Hhi. rewrite Hlo, Hhi in H.
  pose proof (sub_days_ge now t0 (max_hold_days s)) as Hk.
  unfold days_held in H. rewrite Hd in H.
  destruct (Z.leb_spec (max_hold_days s) (sub_days now t0)) as [Hge | Hlt];
    injection H as <- <-; cbn.
  - apply Hk in Hge. split; split; try reflexivity; try (intros _; exact Hge).
    + discriminate.
    + intro Hc. exfalso. lia.
  - assert (Hn : now < t0 + max_hold_days s * us_per_day).
    { apply Z.lt_nge. intro Hc. apply Hk in Hc. lia. }
    split; split; try reflexivity; try (intros _; exact Hn).
    + discriminate.
    + intro Hc. exfalso. lia.
Qed.

(** Entered at midnight of 2024-01-01: at 23:00 on 2024-01-10 the
    position is kept. *)
Lemma time_stop_counts_whole_days_witness :
  exists s' out,
    ManagePosition truediv open_at_100 104 (add_hours (jan2024 9) 23) = Ok (s', out)
    /\ exit_reasons out = [].
Proof.
  destruct (ManagePosition truediv open_at_100 104 (add_hours (jan2024 9) 23))
    as [[s' out]|x] eqn:H; [|exfalso; vm_compute in H; discriminate H].
  exists s', out. split; [reflexivity|].
  apply (proj2 (time_stop_counts_whole_days open_at_100 s' 104
                  (add_hours (jan2024 9) 23) (jan2024 0) out
                  eq_refl eq_refl eq_refl eq_refl H)).
  vm_compute. reflexivity.
Defined.

(* ================================================================= *)
(** ** Two rejected inputs *)

(** An upcoming-launch record whose day count is "soon" makes the call
    raise [ValueError]. *)
Lemma OnData_raises_iff_witness :
  OnData decimal_int truediv Initialize (launch_day 2 garbled_upcoming)
  = Raise ValueError.
Proof.
  apply (proj2 (OnData_raises_iff decimal_int Initialize
                  (launch_day 2 garbled_upcoming) ValueError)).
  split; [reflexivity|]. split; [reflexivity|].
  exists garbled_upcoming. repeat split; reflexivity.
Defined.

(** The header line of the launch file is dropped. *)
Lemma Reader_rejects_iff_witness :
  Reader padded_ymd "RKLBLAUNCHES" "Date,Mission,FlightNo,Outcome" 0 false = None.
Proof.
  apply (proj2 (Reader_rejects_iff padded_ymd "RKLBLAUNCHES"
                  "Date,Mission,FlightNo,Outcome" 0 false)).
  right. left. reflexivity.
Defined.

(* ================================================================= *)
(** ** The time stop over a run *)

(** C9.  The scenario of the specification on trading days, run from
    [Initialize]: 19 shares are bought at 50 on Monday 2024-01-01 and one
    bar at 51 (a gain of 2%) follows on every trading day.  The first seven
    bars keep the position.  The eighth bar, on Thursday 2024-01-11,
    liquidates with the time stop and clears the entry record: ten
    calendar days have passed, [(self.Time - self.entry_date).days = 10],
    but only eight trading days, not the ten that the comment on
    [max_hold_days] and the specification promise. *)
Theorem time_stop_fires_on_eighth_trading_day :
  map (fun so => (orders (snd so), exit_reasons (snd so),
                  entry_price (fst so), entry_date (fst so)))
      (trace decimal_int truediv Initialize trading_day_scenario)
  = ([MarketOrder 19], [], 50%Q, Some (jan2024 0))
    :: repeat ([], [], 50%Q, Some (jan2024 0)) 7
    ++ [([Liquidate], [TIME_STOP], 0%Q, None)]
  /\ map (fun e => (isocalendar_week (Time e), (toordinal (Time e) + 6) mod 7))
         trading_day_scenario
     = [(1, 0); (1, 1); (1, 2); (1, 3); (1, 4); (2, 0); (2, 1); (2, 2); (2, 3)].
Proof. split; vm_compute; reflexivity. Qed.

Section TimeStopRun.

Variable int_of_str : string -> option Z.

(** X22.  A position is open and every call manages it with a gain
    strictly between -5% and +10%.  If fewer than ten whole days of
    [(self.Time - self.entry_date).days] separate the entry from each of
    the calls [before], and at least ten separate it from the call [e], then
    the run completes all of them, the calls [before] emit no order and no
    exit, and [e] emits the single order [Liquidate] with the time stop and
    leaves the entry record clear. *)
Theorem time_stop_after_ten_whole_days (s : State) (before : list Env) (e : Env) :
  default_config s -> (0 < entry_price s)%Q ->
  (forall x, In x (before ++ [e]) -> held_bar int_of_str s x) ->
  (forall x, In x before -> days_held s (Time x) < 10) ->
  10 <= days_held s (Time e) ->
  map (fun so => (orders (snd so), exit_reasons (snd so)))
      (trace int_of_str truediv s (before ++ [e]))
  = repeat ([], []) (List.length before) ++ [([Liquidate], [TIME_STOP])]
  /\ entry_price (final_state s (trace int_of_str truediv s (before ++ [e]))) = 0%Q
  /\ entry_date (final_state s (trace int_of_str truediv s (before ++ [e]))) = None.
Proof.
  revert s. induction before as [|x before IH]; intros s Hcfg Hpos Hheld Hearly Hten.
  - cbn [app trace List.length repeat].
    destruct (OnData_held int_of_str s e Hcfg Hpos (Hheld e (or_introl eq_refl)))
      as (s' & out & H & Hc).
    rewrite H. apply Z.leb_le in Hten. rewrite Hten in Hc.
    destruct Hc as (Hr & Ho & P1 & P2).
    cbn [map snd trace]. rewrite Hr, Ho, final_state_cons. cbn. auto.
  - cbn [app trace List.length repeat].
    destruct (OnData_held int_of_str s x Hcfg Hpos (Hheld x (or_introl eq_refl)))
      as (s' & out & H & Hc).
    rewrite H.
    assert (Hx : (10 <=? days_held s (Time x)) = false).
    { apply Z.leb_gt. apply Hearly. left; reflexivity. }
    rewrite Hx in Hc. destruct Hc as (Hr & Ho & P1 & P2 & Hcfg').
    cbn [map snd]. rewrite Hr, Ho, final_state_cons.
    destruct (IH s') as (IH1 & IH2 & IH3).
    + exact Hcfg'.
    + rewrite P1. exact Hpos.
    + intros y Hy. specialize (Hheld y (or_intror Hy)).
      unfold held_bar in *. rewrite (pnl_pct_ext s s' _ P1). exact Hheld.
    + intros y Hy. rewrite (days_held_ext s s' _ P2). apply Hearly. right; exact Hy.
    + rewrite (days_held_ext s s' _ P2). exact Hten.
    + rewrite IH1. auto.
Qed.

End TimeStopRun.

(** Entered at 100 on 2024-01-01; bars one, four and nine days later do
    nothing, the bar ten days later liquidates with the time stop. *)
Lemma time_stop_after_ten_whole_days_witness :
  map (fun so => (orders (snd so), exit_reasons (snd so)))
      (trace decimal_int truediv open_at_100
             [bar 1 101 true 100; bar 4 99 true 100; bar 9 104 true 100;
              bar 10 103 true 100])
  = [([], []); ([], []); ([], []); ([Liquidate], [TIME_STOP])].
Proof.
  apply (time_stop_after_ten_whole_days decimal_int open_at_100
           [bar 1 101 true 100; bar 4 99 true 100; bar 9 104 true 100]
           (bar 10 103 true 100)).
  - repeat split; reflexivity.
  - reflexivity.
  - intros x Hx. cbn in Hx.
    destruct Hx as [<- | [<- | [<- | [<- | []]]]];
      (repeat split; try reflexivity; exact I).
  - intros x Hx. cbn in Hx.
    destruct Hx as [<- | [<- | [<- | []]]]; reflexivity.
  - vm_compute. discriminate.
Defined.
